(** * Coordinate validation scripts of rotv: a shallow embedding

    The development follows the three scripts
    [scripts/validate_coordinates.py], [scripts/validate_water_features.py]
    and [scripts/coordinate_report.py].

    Conventions of the embedding:
    - a Python [float] is a real number of [R]; rounding, infinities other
      than the explicit [float('inf')] of the matcher, and NaN are not
      represented;
    - a Python exception is a value [Raise e] of the [result] type, and
      code that may raise is written in the error monad;
    - a Python [str] is a [string], a [dict] with string keys is a
      [gmap string _], a [list] is a [list];
    - the text of an f-string message is kept as a constructor carrying the
      values that the message interpolates. *)

From Stdlib Require Import Reals Lra Psatz.
From Stdlib Require Import String Ascii List Sorted Permutation.
From stdpp Require Import gmap strings.

Import ListNotations.

(** ** Exceptions *)

Inductive exn : Set :=
| KeyError
| ValueError
| TypeError
| AttributeError
| IndexError.

Inductive result (A : Type) : Type :=
| Ok (a : A)
| Raise (e : exn).

Arguments Ok {A} a.
Arguments Raise {A} e.

(** Sequencing: the first exception raised ends the computation. *)
#[global] Instance result_bind : MBind result :=
  fun A B (k : A -> result B) (m : result A) =>
    match m with
    | Ok a => k a
    | Raise e => Raise e
    end.

#[global] Instance result_ret : MRet result := fun A a => Ok a.

Definition returns {A : Type} (m : result A) : Prop := exists a, m = Ok a.

#[global] Instance Rle_decision (x y : R) : Decision (x <= y)%R := Rle_dec x y.
#[global] Instance Rlt_decision (x y : R) : Decision (x < y)%R := Rlt_dec x y.
#[global] Instance Rgt_decision (x y : R) : Decision (x > y)%R := Rgt_dec x y.
#[global] Instance Req_decision : EqDecision R := Req_dec_T.

(** ** The [math] module, on reals *)

Module PyMath.
Local Open Scope R_scope.

(** [math.radians(x)] is [x * (pi / 180)]. *)
Definition radians (x : R) : R := x * (PI / 180).

(** [math.sqrt(x)] raises [ValueError] (math domain error) below zero. *)
Definition sqrt (x : R) : result R :=
  if Rle_dec 0 x then Ok (R_sqrt.sqrt x) else Raise ValueError.

(** [math.atan2(y, x)]: the angle of the point [(x, y)], in [(-pi, pi]]. *)
Definition atan2 (y x : R) : R :=
  if Rlt_dec 0 x then atan (y / x)
  else if Rlt_dec x 0 then
    (if Rle_dec 0 y then atan (y / x) + PI else atan (y / x) - PI)
  else if Rlt_dec 0 y then PI / 2
  else if Rlt_dec y 0 then - (PI / 2)
  else 0.

End PyMath.

(** ** [haversine_distance]

    The three scripts carry the same function, character for character
    apart from comments. *)

Section Haversine.
Local Open Scope R_scope.

(** The intermediate value [a] of the source. *)
Definition haversine_a (lat1 lon1 lat2 lon2 : R) : R :=
  let phi1 := PyMath.radians lat1 in
  let phi2 := PyMath.radians lat2 in
  let delta_phi := PyMath.radians (lat2 - lat1) in
  let delta_lambda := PyMath.radians (lon2 - lon1) in
  sin (delta_phi / 2) ^ 2 + cos phi1 * cos phi2 * sin (delta_lambda / 2) ^ 2.

Definition haversine_distance (lat1 lon1 lat2 lon2 : R) : result R :=
  let R := 6371000 in
  let a := haversine_a lat1 lon1 lat2 lon2 in
  sa ← PyMath.sqrt a;
  sb ← PyMath.sqrt (1 - a);
  let c := 2 * PyMath.atan2 sa sb in
  Ok (R * c).

(** The value of the distance when both square roots are defined. *)
Definition haversine_m (lat1 lon1 lat2 lon2 : R) : R :=
  let a := haversine_a lat1 lon1 lat2 lon2 in
  6371000 * (2 * PyMath.atan2 (R_sqrt.sqrt a) (R_sqrt.sqrt (1 - a))).

End Haversine.

(** An explicit [float('inf')], for the running minimum of the matcher. *)
Inductive xfloat : Type :=
| Fin (r : R)
| Inf.

(** [x < y] on floats, where [x] is finite. *)
Definition fin_lt (x : R) (y : xfloat) : bool :=
  match y with
  | Fin r => bool_decide (x < r)%R
  | Inf => true
  end.

(** ** Strings *)

Section PyStr.
Local Open Scope string_scope.

(** [c.lower()] on an ASCII character. *)
Definition ascii_lower (c : ascii) : ascii :=
  let n := N_of_ascii c in
  if ((65 <=? n) && (n <=? 90))%N then ascii_of_N (n + 32) else c.

(** [s.lower()], on ASCII text. *)
Fixpoint lower (s : string) : string :=
  match s with
  | "" => ""
  | String c s' => String (ascii_lower c) (lower s')
  end.

(** [s.startswith(p)]. *)
Fixpoint startswith (p s : string) : bool :=
  match p, s with
  | "", _ => true
  | String _ _, "" => false
  | String a p', String b s' => Ascii.eqb a b && startswith p' s'
  end.

(** [needle in hay], the substring test of [str]. *)
Fixpoint str_in (needle hay : string) : bool :=
  startswith needle hay ||
  match hay with
  | "" => false
  | String _ hay' => str_in needle hay'
  end.

(** [k] occurs in [s] as a run of consecutive characters. *)
Definition substring_of (k s : string) : Prop :=
  exists pre post, s = pre +:+ k +:+ post.

(** [s.split(sep)] for a separator of one character. *)
Fixpoint split (sep : ascii) (s : string) : list string :=
  match s with
  | "" => [""]
  | String c s' =>
      if Ascii.eqb c sep then "" :: split sep s'
      else match split sep s' with
           | [] => [String c ""]
           | h :: t => String c h :: t
           end
  end.

(** [s[:n]]. *)
Definition prefix_of (n : nat) (s : string) : string := String.substring 0 n s.

(** [any(keyword in name_lower for keyword in keywords)]. *)
Definition any_keyword_in (keywords : list string) (name_lower : string) : bool :=
  existsb (fun keyword => str_in keyword name_lower) keywords.

End PyStr.

(** ** Values decoded from JSON that the scripts read from a destination *)

Inductive pyval : Type :=
| PNone
| PStr (s : string)
| PNum (r : R).

(** Truth value of an object in a condition. *)
Definition truthy (v : pyval) : bool :=
  match v with
  | PNone => false
  | PStr s => negb (String.eqb s "")
  | PNum r => negb (bool_decide (r = 0%R))
  end.

(** [d[k]] on a dict. *)
Definition getitem {V : Type} (d : gmap string V) (k : string) : result V :=
  match d !! k with
  | Some v => Ok v
  | None => Raise KeyError
  end.

(** [l[i]] on a list, for an index that is not negative. *)
Definition index {A : Type} (l : list A) (i : nat) : result A :=
  match l !! i with
  | Some x => Ok x
  | None => Raise IndexError
  end.

Section Builtins.

(** The builtin [float] on text: [None] stands for the [ValueError] that
    it raises on text that is not a number. *)
Variable str_to_float : string -> option R.

Definition float_of_str (s : string) : result R :=
  match str_to_float s with
  | Some r => Ok r
  | None => Raise ValueError
  end.

(** [float(v)]. *)
Definition py_float (v : pyval) : result R :=
  match v with
  | PNone => Raise TypeError
  | PStr s => float_of_str s
  | PNum r => Ok r
  end.

(** [float(v) if v else None]. *)
Definition float_if_set (v : pyval) : result (option R) :=
  if truthy v then (r ← py_float v; Ok (Some r)) else Ok None.

(** A site read from the fields of a line of the USGS answer: the name
    is the third field, and the fifth and the sixth field are text that
    [float] reads as the latitude and the longitude. *)
Definition read_from (parts : list string) (n : string) (la lo : R) : Prop :=
  parts !! 2 = Some n
  /\ exists p4 p5,
       parts !! 4 = Some p4 /\ str_to_float p4 = Some la
       /\ parts !! 5 = Some p5 /\ str_to_float p5 = Some lo.

End Builtins.

(** ** The builtin [sorted]

    [sorted(l, key=f)] is stable: entries with equal keys keep their
    order.  The stable sort below inserts each entry, from the last to the
    first, before the first entry whose key is not smaller. *)

Section Sorted.
Context {A : Type} (key : A -> R).

Fixpoint insert_by (x : A) (l : list A) : list A :=
  match l with
  | [] => [x]
  | y :: l' =>
      if bool_decide (key x <= key y)%R then x :: y :: l'
      else y :: insert_by x l'
  end.

Fixpoint sorted (l : list A) : list A :=
  match l with
  | [] => []
  | x :: l' => insert_by x (sorted l')
  end.


End Sorted.

(** ** scripts/validate_water_features.py *)

Module ValidateWaterFeatures.
Local Open Scope string_scope.

Definition WATER_KEYWORDS : list string :=
  ["dam"; "river"; "lake"; "pond"; "marsh"; "falls"; "waterfall";
   "creek"; "canal"; "lock"; "aqueduct"; "reservoir"; "gorge"].

Definition is_water_feature (name : string) : bool :=
  let name_lower := lower name in
  any_keyword_in WATER_KEYWORDS name_lower.

(** An entry of the list built by [get_usgs_sites_in_area]. *)
Record usgs_site : Type := mk_usgs_site {
  site_id : string;
  site_name : string;
  site_lat : R;
  site_lng : R
}.

(** The [for] loop of [find_nearest_usgs_site], from the state
    [(nearest, min_distance)]. *)
Fixpoint find_nearest_loop (lat lng : R) (usgs_sites : list usgs_site)
  (nearest : option usgs_site) (min_distance : xfloat)
  : result (option usgs_site * xfloat) :=
  match usgs_sites with
  | [] => Ok (nearest, min_distance)
  | site :: rest =>
      distance ← haversine_distance lat lng (site_lat site) (site_lng site);
      if fin_lt distance min_distance
      then find_nearest_loop lat lng rest (Some site) (Fin distance)
      else find_nearest_loop lat lng rest nearest min_distance
  end.

Definition find_nearest_usgs_site (lat lng : R) (usgs_sites : list usgs_site)
  : result (option usgs_site * xfloat) :=
  find_nearest_loop lat lng usgs_sites None Inf.

(** The rows that [main] writes; a constructor for each kind of row. *)
Inductive row : Type :=
| MissingCoords (name : pyval)
| Checked (name : pyval) (lat lng : R) (distance : xfloat)
    (nearest : usgs_site) (status : string)
| NoData (name : pyval) (lat lng : R).

(** [x < c] for a float [x] that may be [float('inf')]. *)
Definition xfloat_lt (x : xfloat) (c : R) : bool :=
  match x with
  | Fin r => bool_decide (r < c)%R
  | Inf => false
  end.

(** ['OK' if distance < 300 else 'CHECK' if distance < 1000 else 'FAR']. *)
Definition check_status (distance : xfloat) : string :=
  if xfloat_lt distance 300 then "OK"
  else if xfloat_lt distance 1000 then "CHECK"
  else "FAR".

(** The name in a row, and the issue that a row adds to [issues]. *)
Definition row_name (r : row) : pyval :=
  match r with
  | MissingCoords name => name
  | Checked name _ _ _ _ _ => name
  | NoData name _ _ => name
  end.

Definition row_issue (r : row) : option (pyval * xfloat * usgs_site) :=
  match r with
  | Checked name _ _ distance nearest status =>
      if negb (String.eqb status "OK") then Some (name, distance, nearest)
      else None
  | _ => None
  end.

(** What a row says is right for a list of sites: a row with a site shows
    a site of the list at the least haversine distance from the
    coordinates of the row, that distance, and the status that the
    distance calls for; a row without data is written only for the empty
    list. *)
Definition row_sound (usgs_sites : list usgs_site) (r : row) : Prop :=
  match r with
  | MissingCoords _ => True
  | Checked _ lat lng distance nearest status =>
      exists d,
        distance = Fin d
        /\ nearest ∈ usgs_sites
        /\ haversine_distance lat lng (site_lat nearest) (site_lng nearest)
           = Ok d
        /\ Forall (fun site => exists d',
                     haversine_distance lat lng (site_lat site) (site_lng site)
                     = Ok d' /\ (d <= d')%R) usgs_sites
        /\ status = (if bool_decide (d < 300)%R then "OK"
                     else if bool_decide (d < 1000)%R then "CHECK"
                     else "FAR")
  | NoData _ _ _ => usgs_sites = []
  end.

(** A destination that the comprehension of [main] keeps. *)
Definition named_water_feature (d : gmap string pyval) : bool :=
  match d !! "name" with
  | Some (PStr n) => is_water_feature n
  | _ => false
  end.

(** [name.lower()] needs text. *)
Definition as_text (v : pyval) : result string :=
  match v with
  | PStr s => Ok s
  | _ => Raise AttributeError
  end.

(** [[d for d in destinations if is_water_feature(d['name'])]]. *)
Fixpoint water_features (destinations : list (gmap string pyval))
  : result (list (gmap string pyval)) :=
  match destinations with
  | [] => Ok []
  | d :: rest =>
      v ← getitem d "name";
      n ← as_text v;
      rest' ← water_features rest;
      Ok (if is_water_feature n then d :: rest' else rest')
  end.

Section Main.
Variable str_to_float : string -> option R.

(** The body of the [try] of [get_usgs_sites_in_area] for one line. *)
Definition usgs_line (parts : list string) : result usgs_site :=
  p1 ← index parts 1;
  p2 ← index parts 2;
  p4 ← index parts 4;
  la ← float_of_str str_to_float p4;
  p5 ← index parts 5;
  lo ← float_of_str str_to_float p5;
  Ok (mk_usgs_site p1 p2 la lo).

(** The loop over the lines of the answer. *)
Fixpoint usgs_lines (lines : list string) (sites : list usgs_site)
  : result (list usgs_site) :=
  match lines with
  | [] => Ok sites
  | line :: rest =>
      if startswith "USGS" line then
        let parts := split "009" line in
        if (6 <=? List.length parts)%nat then
          match usgs_line parts with
          | Ok site => usgs_lines rest (sites ++ [site])%list
          | Raise ValueError | Raise IndexError => usgs_lines rest sites
          | Raise e => Raise e
          end
        else usgs_lines rest sites
      else usgs_lines rest sites
  end.

(** [get_usgs_sites_in_area], from what the service answers: the decoded
    text, or [None] when the request or the decoding raises. *)
Definition get_usgs_sites_in_area (reply : option string) : list usgs_site :=
  match reply with
  | Some data =>
      match usgs_lines (split "010" data) [] with
      | Ok sites => sites
      | Raise _ => []
      end
  | None => []
  end.

(** The loop of [main] over the water features, from the rows written and
    the issues collected so far. *)
Fixpoint main_loop (usgs_sites : list usgs_site)
  (features : list (gmap string pyval))
  (rows : list row) (issues : list (pyval * xfloat * usgs_site))
  : result (list row * list (pyval * xfloat * usgs_site)) :=
  match features with
  | [] => Ok (rows, issues)
  | dest :: rest =>
      name ← getitem dest "name";
      vlat ← getitem dest "latitude";
      lat ← float_if_set str_to_float vlat;
      vlng ← getitem dest "longitude";
      lng ← float_if_set str_to_float vlng;
      match lat, lng with
      | Some lat, Some lng =>
          found ← find_nearest_usgs_site lat lng usgs_sites;
          let '(nearest, distance) := found in
          match nearest with
          | Some site =>
              let status := check_status distance in
              let rows :=
                (rows ++ [Checked name lat lng distance site status])%list in
              if negb (String.eqb status "OK")
              then main_loop usgs_sites rest rows
                     (issues ++ [(name, distance, site)])%list
              else main_loop usgs_sites rest rows issues
          | None =>
              main_loop usgs_sites rest (rows ++ [NoData name lat lng])%list
                issues
          end
      | _, _ =>
          main_loop usgs_sites rest (rows ++ [MissingCoords name])%list issues
      end
  end.

(** A destination that [main] can handle: its name is text, and if the
    classifier accepts the name, its two coordinate fields are there and
    can be read. *)
Definition well_formed (d : gmap string pyval) : Prop :=
  exists n,
    d !! "name" = Some (PStr n)
    /\ (is_water_feature n = true ->
        exists vlat vlng olat olng,
          d !! "latitude" = Some vlat /\ d !! "longitude" = Some vlng
          /\ float_if_set str_to_float vlat = Ok olat
          /\ float_if_set str_to_float vlng = Ok olng).

(** [main], from the destinations and the answer of the USGS service: the
    rows written and the issues collected.  Printing the issues at the end
    is left out. *)
Definition main (destinations : list (gmap string pyval))
  (reply : option string)
  : result (list row * list (pyval * xfloat * usgs_site)) :=
  let usgs_sites := get_usgs_sites_in_area reply in
  features ← water_features destinations;
  main_loop usgs_sites features [] [].

End Main.

End ValidateWaterFeatures.

(** ** scripts/coordinate_report.py *)

Module CoordinateReport.
Local Open Scope string_scope.

Definition KNOWN_COORDINATES : gmap string (R * R) :=
  list_to_map
    [("Peninsula Dam", (41.2425, -81.55));
     ("Lock 29 Peninsula", (41.2425, -81.55));
     ("Brandywine Falls", (41.2767, -81.5382));
     ("Blue Hen Falls", (41.2659, -81.5657));
     ("Bridal Veil Falls", (41.3762, -81.5354));
     ("Beaver Marsh", (41.1814, -81.5832));
     ("Deep Lock Quarry", (41.2331, -81.5510));
     ("Tinkers Creek Gorge", (41.3762, -81.5354))]%R.

(** The dict appended to [issues] in [main]. *)
Record issue : Type := mk_issue {
  issue_name : pyval;
  current : R * R;
  suggested : R * R;
  distance : R;
  source : string
}.

(** [name in KNOWN_COORDINATES] followed by [KNOWN_COORDINATES[name]]: only
    text can equal a key of the table. *)
Definition known (name : pyval) : option (R * R) :=
  match name with
  | PStr s => KNOWN_COORDINATES !! s
  | _ => None
  end.

(** The check against known coordinates, for a destination that has both
    coordinates. *)
Definition check_known (name : pyval) (lat lng : R) (issues : list issue)
  : result (list issue) :=
  match known name with
  | Some (known_lat, known_lng) =>
      distance ← haversine_distance lat lng known_lat known_lng;
      if bool_decide (distance > 100)%R
      then Ok (issues ++ [mk_issue name (lat, lng) (known_lat, known_lng)
                                   distance "Known/USGS"])%list
      else Ok issues
  | None => Ok issues
  end.

(** An issue that the table of known coordinates bears out: the name is a
    key of the table, the suggestion is its entry, the distance is the
    haversine distance from the current to the suggested coordinates, and
    it is above 100. *)
Definition grounded (i : issue) : Prop :=
  (distance i > 100)%R
  /\ source i = "Known/USGS"
  /\ (exists s, issue_name i = PStr s
                /\ KNOWN_COORDINATES !! s = Some (suggested i))
  /\ haversine_distance (current i).1 (current i).2
       (suggested i).1 (suggested i).2 = Ok (distance i).

Section Main.
Variable str_to_float : string -> option R.

(** The body of the loop over the destinations in [main]. *)
Definition check_destination (dest : gmap string pyval) (issues : list issue)
  : result (list issue) :=
  name ← getitem dest "name";
  vlat ← getitem dest "latitude";
  lat ← float_if_set str_to_float vlat;
  vlng ← getitem dest "longitude";
  lng ← float_if_set str_to_float vlng;
  match lat, lng with
  | Some lat, Some lng => check_known name lat lng issues
  | _, _ => Ok issues
  end.

Fixpoint check_destinations (destinations : list (gmap string pyval))
  (issues : list issue) : result (list issue) :=
  match destinations with
  | [] => Ok issues
  | dest :: rest =>
      issues' ← check_destination dest issues;
      check_destinations rest issues'
  end.


End Main.

End CoordinateReport.

(** ** scripts/validate_coordinates.py *)

Module ValidateCoordinates.
Local Open Scope string_scope.

(** The bounding box of the park, a dict with four fixed keys. *)
Record bounds : Type := mk_bounds {
  min_lat : R;
  max_lat : R;
  min_lng : R;
  max_lng : R
}.

Definition CVNP_BOUNDS : bounds :=
  {| min_lat := 41.10; max_lat := 41.38; min_lng := -81.70; max_lng := -81.50 |}.

Definition WATER_KEYWORDS : list string :=
  ["dam"; "river"; "lake"; "pond"; "marsh"; "falls"; "waterfall";
   "creek"; "canal"; "lock"; "aqueduct"; "reservoir"].

Definition is_within_bounds (lat lng : R) : bool :=
  bool_decide (min_lat CVNP_BOUNDS <= lat <= max_lat CVNP_BOUNDS)%R &&
  bool_decide (min_lng CVNP_BOUNDS <= lng <= max_lng CVNP_BOUNDS)%R.

Definition is_water_feature (name : string) : bool :=
  let name_lower := lower name in
  any_keyword_in WATER_KEYWORDS name_lower.

(** An entry of the list returned by [get_nearby_usgs_sites]. *)
Record usgs_site : Type := mk_usgs_site {
  name : string;
  lat : R;
  lng : R;
  distance_m : R
}.


(** The entries of [issues] and of [suggestions]; each constructor stands
    for one message of the source and carries what the message shows. *)
Inductive message : Type :=
| NoCoordinates
| OutsideBounds
| WaterFeatureFar (distance : R)
| GeocodeOutside
| Consider (lat lng : R) (name : string)
| NearUSGS (name : string) (distance : R)
| GeocodedTo (text : string).

(** The dict returned by [validate_destination]. *)
Record validation : Type := mk_validation {
  status : string;
  issues : list message;
  suggestions : list message
}.

(** A coordinate field that holds no value: null or the empty text. *)
Definition blank (v : pyval) : Prop := v = PNone \/ v = PStr "".

(** The result for a destination without coordinates. *)
Definition missing : validation := mk_validation "MISSING" [NoCoordinates] [].

(** The status that a list of issues calls for. *)
Definition status_of (issues : list message) : string :=
  match issues with [] => "OK" | _ :: _ => "WARNING" end.

Section Services.

Variable str_to_float : string -> option R.

(** What the USGS service answers for the box around a point: the decoded
    text, or [None] when the request or the decoding raises. *)
Variable usgs_reply : R -> R -> option string.

(** The [display_name] of the Nominatim answer for a point: [None] when the
    request raises or the answer has no such field. *)
Variable nominatim_display_name : R -> R -> option string.

(** The body of the [try] for one line of the answer. *)
Definition usgs_line (lat lng : R) (parts : list string) : result usgs_site :=
  p4 ← index parts 4;
  site_lat ← float_of_str str_to_float p4;
  p5 ← index parts 5;
  site_lng ← float_of_str str_to_float p5;
  site_name ← (if (2 <? List.length parts)%nat then index parts 2
               else Ok "Unknown");
  distance ← haversine_distance lat lng site_lat site_lng;
  Ok (mk_usgs_site site_name site_lat site_lng distance).

(** The loop over the lines of the answer. *)
Fixpoint usgs_lines (lat lng : R) (lines : list string)
  (sites : list usgs_site) : result (list usgs_site) :=
  match lines with
  | [] => Ok sites
  | line :: rest =>
      if startswith "USGS" line then
        let parts := split "009" line in
        if (5 <=? List.length parts)%nat then
          match usgs_line lat lng parts with
          | Ok site => usgs_lines lat lng rest (sites ++ [site])%list
          | Raise ValueError | Raise IndexError => usgs_lines lat lng rest sites
          | Raise e => Raise e
          end
        else usgs_lines lat lng rest sites
      else usgs_lines lat lng rest sites
  end.

Definition get_nearby_usgs_sites (lat lng : R) : list usgs_site :=
  match usgs_reply lat lng with
  | Some data =>
      match usgs_lines lat lng (split "010" data) [] with
      | Ok sites => sorted distance_m sites
      | Raise _ => []
      end
  | None => []
  end.

(** The first component of the pair that [reverse_geocode] returns. *)
Definition reverse_geocode (lat lng : R) : string :=
  match nominatim_display_name lat lng with
  | Some display_name => display_name
  | None => ""
  end.

(** [name.lower()] needs text. *)
Definition as_str (v : pyval) : result string :=
  match v with
  | PStr s => Ok s
  | _ => Raise AttributeError
  end.

Definition validate_destination (dest : gmap string pyval) : result validation :=
  let issues := [] in
  let suggestions := [] in
  name ← getitem dest "name";
  vlat ← getitem dest "latitude";
  lat ← float_if_set str_to_float vlat;
  vlng ← getitem dest "longitude";
  lng ← float_if_set str_to_float vlng;
  match lat, lng with
  | Some lat, Some lng =>
      let issues :=
        if negb (is_within_bounds lat lng)
        then (issues ++ [OutsideBounds])%list else issues in
      name_str ← as_str name;
      let '(issues, suggestions) :=
        if is_water_feature name_str then
          match get_nearby_usgs_sites lat lng with
          | nearest :: _ =>
              if bool_decide (distance_m nearest > 500)%R
              then ((issues ++ [WaterFeatureFar (distance_m nearest)])%list,
                    (suggestions ++ [Consider (ValidateCoordinates.lat nearest)
                                       (ValidateCoordinates.lng nearest)
                                       (ValidateCoordinates.name nearest)])%list)
              else (issues,
                    (suggestions ++ [NearUSGS (ValidateCoordinates.name nearest)
                                       (distance_m nearest)])%list)
          | [] => (issues, suggestions)
          end
        else (issues, suggestions) in
      let display_name := reverse_geocode lat lng in
      let '(issues, suggestions) :=
        if negb (String.eqb display_name "") then
          let issues :=
            if negb (str_in "Summit" display_name)
               && negb (str_in "Cuyahoga" display_name)
            then (issues ++ [GeocodeOutside])%list else issues in
          (issues,
           (suggestions ++
            [GeocodedTo (if (80 <? String.length display_name)%nat
                         then prefix_of 80 display_name +:+ "..."
                         else display_name)])%list)
        else (issues, suggestions) in
      let status := match issues with [] => "OK" | _ :: _ => "WARNING" end in
      Ok (mk_validation status issues suggestions)
  | _, _ => Ok (mk_validation "MISSING" [NoCoordinates] [])
  end.

(** *** Vocabulary for the statements about [validate_destination] *)

(** A coordinate field that [validate_destination] can read. *)
Definition readable (v : pyval) : Prop :=
  blank v \/ returns (py_float str_to_float v).

(** The issues that each check contributes, in the order of the checks. *)
Definition region_issues (lat lng : R) : list message :=
  if is_within_bounds lat lng then [] else [OutsideBounds].

Definition water_issues (n : string) (lat lng : R) : list message :=
  if is_water_feature n then
    match get_nearby_usgs_sites lat lng with
    | nearest :: _ =>
        if bool_decide (distance_m nearest > 500)%R
        then [WaterFeatureFar (distance_m nearest)] else []
    | [] => []
    end
  else [].

Definition geocode_issues (lat lng : R) : list message :=
  let display_name := reverse_geocode lat lng in
  if negb (String.eqb display_name "")
     && (negb (str_in "Summit" display_name)
         && negb (str_in "Cuyahoga" display_name))
  then [GeocodeOutside] else [].

(** The counters of [main]; writing the rows and the pauses are left out. *)
Definition initial_stats : gmap string nat :=
  <["OK" := 0%nat]> (<["WARNING" := 0%nat]> (<["MISSING" := 0%nat]> ∅)).

Fixpoint main_loop (destinations : list (gmap string pyval))
  (stats : gmap string nat) : result (gmap string nat) :=
  match destinations with
  | [] => Ok stats
  | dest :: rest =>
      _ ← getitem dest "name";
      result ← validate_destination dest;
      count ← getitem stats (status result);
      main_loop rest (<[status result := (count + 1)%nat]> stats)
  end.

(** The suggestions that the checks contribute, in the order of the
    checks. *)
Definition water_suggestions (n : string) (lat lng : R) : list message :=
  if is_water_feature n then
    match get_nearby_usgs_sites lat lng with
    | nearest :: _ =>
        if bool_decide (distance_m nearest > 500)%R
        then [Consider (ValidateCoordinates.lat nearest)
                (ValidateCoordinates.lng nearest)
                (ValidateCoordinates.name nearest)]
        else [NearUSGS (ValidateCoordinates.name nearest) (distance_m nearest)]
    | [] => []
    end
  else [].

Definition geocode_suggestions (lat lng : R) : list message :=
  let display_name := reverse_geocode lat lng in
  if negb (String.eqb display_name "") then
    [GeocodedTo (if (80 <? String.length display_name)%nat
                 then prefix_of 80 display_name +:+ "..."
                 else display_name)]
  else [].

(** Whether the result for a destination has a given status, and the
    number of destinations of a list for which it has. *)
Definition has_status (s : string) (dest : gmap string pyval) : bool :=
  match validate_destination dest with
  | Ok r => String.eqb (status r) s
  | Raise _ => false
  end.

Definition status_count (s : string) (destinations : list (gmap string pyval))
  : nat :=
  List.length (List.filter (has_status s) destinations).

End Services.

End ValidateCoordinates.

(** ** scripts/generate_map_tiles.py *)

Module GenerateMapTiles.
Local Open Scope string_scope.

(** The URL of a static map: the text of the source with the two floats
    and the zoom that it shows, the floats both as the centre and as the
    marker. *)
Inductive map_url : Type :=
| StaticMap (lat_f lng_f : R) (zoom : nat).

(** [d.get(k)]: the value, or [None] without the key. *)
Definition get (d : gmap string pyval) (k : string) : pyval :=
  match d !! k with
  | Some v => v
  | None => PNone
  end.

Section Main.
Variable str_to_float : string -> option R.

Definition get_map_tile_url (lat lng : pyval) (zoom : nat) : result map_url :=
  lat_f ← py_float str_to_float lat;
  lng_f ← py_float str_to_float lng;
  Ok (StaticMap lat_f lng_f zoom).

(** The loop of [main]: the rows written, a name and a URL or the empty
    text. *)
Fixpoint main_loop (destinations : list (gmap string pyval))
  (rows : list (pyval * option map_url))
  : result (list (pyval * option map_url)) :=
  match destinations with
  | [] => Ok rows
  | dest :: rest =>
      name ← getitem dest "name";
      let lat := get dest "latitude" in
      let lng := get dest "longitude" in
      if truthy lat && truthy lng then
        url ← get_map_tile_url lat lng 15;
        main_loop rest (rows ++ [(name, Some url)])%list
      else main_loop rest (rows ++ [(name, None)])%list
  end.

(** A row that is right for a destination: it is under the name of the
    destination; it has a URL exactly when both coordinates are there and
    count as true, and the URL then shows the two coordinates as [float]
    reads them, at zoom 15. *)
Definition row_right (row : pyval * option map_url) (dest : gmap string pyval)
  : Prop :=
  dest !! "name" = Some row.1
  /\ match row.2 with
     | Some u =>
         truthy (get dest "latitude") && truthy (get dest "longitude") = true
         /\ exists lat_f lng_f,
              u = StaticMap lat_f lng_f 15
              /\ py_float str_to_float (get dest "latitude") = Ok lat_f
              /\ py_float str_to_float (get dest "longitude") = Ok lng_f
     | None =>
         truthy (get dest "latitude") && truthy (get dest "longitude") = false
     end.

(** A destination whose coordinates count as true and of which one is
    text that [float] refuses. *)
Definition not_a_number (dest : gmap string pyval) : Prop :=
  truthy (get dest "latitude") && truthy (get dest "longitude") = true
  /\ (py_float str_to_float (get dest "latitude") = Raise ValueError
      \/ py_float str_to_float (get dest "longitude") = Raise ValueError).

End Main.

End GenerateMapTiles.

(** ** scripts/find_images.py *)

Module FindImages.
Local Open Scope string_scope.

(** [get_map_tile_url] of this script is, character for character, that of
    [generate_map_tiles.py], and [dest.get] is the same call; both are
    taken from [GenerateMapTiles] below. *)

(** The entries of [pages] as the Wikimedia API describes them: a page
    may have a list [imageinfo]; an entry of the list may have a width, a
    height, a [thumburl] and a [url].  [None] stands for a key that the
    dict does not have. *)
Record info : Type := mk_info {
  width : option Z;
  height : option Z;
  thumburl : option string;
  url : option string
}.

Record page : Type := mk_page {
  imageinfo : option (list info)
}.

(** [d.get(k, default)]. *)
Definition get_default {A : Type} (field : option A) (default : A) : A :=
  match field with
  | Some v => v
  | None => default
  end.

(** [info.get('thumburl', info.get('url'))]. *)
Definition thumb_or_url (i : info) : option string :=
  match thumburl i with
  | Some u => Some u
  | None => url i
  end.

(** The loop of [search_wikimedia] over [pages.items()], from the state
    [(best_url, best_score)]. *)
Fixpoint best_loop (pages : list (string * page))
  (best_url : option string) (best_score : R)
  : result (option string) :=
  match pages with
  | [] => Ok best_url
  | (page_id, page) :: rest =>
      match imageinfo page with
      | None => best_loop rest best_url best_score
      | Some infos =>
          i ← index infos 0;
          let width := get_default (width i) 0%Z in
          let height := get_default (height i) 0%Z in
          if ((width <? 400) || (height <? 300))%Z
          then best_loop rest best_url best_score
          else
            let score := IZR (width * height) in
            let score := if (height <? width)%Z then (score * 1.2)%R else score in
            if bool_decide (score > best_score)%R
            then best_loop rest (thumb_or_url i) score
            else best_loop rest best_url best_score
      end
  end.

Section Main.

(** What the Wikimedia API answers to a query: [None] when the request or
    the decoding raises, [Some None] when the answer has no
    [query]/[pages], otherwise the entries of [pages] in their order. *)
Variable wikimedia_reply : string -> option (option (list (string * page))).

(** The builtin [float] on text, and [str] on a float. *)
Variable str_to_float : string -> option R.
Variable float_to_str : R -> string.

Definition search_wikimedia (query : string) : option string :=
  match wikimedia_reply query with
  | Some (Some pages) =>
      match best_loop pages None 0 with
      | Ok best_url => best_url
      | Raise _ => None
      end
  | Some None => None
  | None => None
  end.

(** [f"{name}"]. *)
Definition format (v : pyval) : string :=
  match v with
  | PNone => "None"
  | PStr s => s
  | PNum r => float_to_str r
  end.

(** A URL that the loop over the queries keeps: text that is not empty. *)
Definition found (image_url : option string) : bool :=
  match image_url with
  | Some u => negb (String.eqb u "")
  | None => false
  end.

(** The loop over [search_queries], from the current [image_url]. *)
Fixpoint first_image (search_queries : list string) (image_url : option string)
  : option string :=
  match search_queries with
  | [] => image_url
  | query :: rest =>
      let image_url := search_wikimedia query in
      if found image_url then image_url else first_image rest image_url
  end.

(** The rows that [main] writes. *)
Inductive image_row : Type :=
| Wikimedia (name : pyval) (image_url : string)
| MapTile (name : pyval) (map_url : GenerateMapTiles.map_url)
| NoImage (name : pyval).

(** The state of the loop of [main]: the rows written and the two
    counters. *)
Record progress : Type := mk_progress {
  rows : list image_row;
  wikimedia_found : nat;
  map_fallback : nat
}.

Fixpoint main_loop (destinations : list (gmap string pyval)) (st : progress)
  : result progress :=
  match destinations with
  | [] => Ok st
  | dest :: rest =>
      name ← getitem dest "name";
      let lat := GenerateMapTiles.get dest "latitude" in
      let lng := GenerateMapTiles.get dest "longitude" in
      let search_queries :=
        [format name +:+ " Cuyahoga Valley"; format name +:+ " Ohio";
         format name] in
      match first_image search_queries None with
      | Some image_url =>
          if negb (String.eqb image_url "") then
            main_loop rest
              (mk_progress (rows st ++ [Wikimedia name image_url])%list
                 (wikimedia_found st + 1) (map_fallback st))
          else if truthy lat && truthy lng then
            map_url ← GenerateMapTiles.get_map_tile_url str_to_float lat lng 15;
            main_loop rest
              (mk_progress (rows st ++ [MapTile name map_url])%list
                 (wikimedia_found st) (map_fallback st + 1))
          else
            main_loop rest
              (mk_progress (rows st ++ [NoImage name])%list
                 (wikimedia_found st) (map_fallback st))
      | None =>
          if truthy lat && truthy lng then
            map_url ← GenerateMapTiles.get_map_tile_url str_to_float lat lng 15;
            main_loop rest
              (mk_progress (rows st ++ [MapTile name map_url])%list
                 (wikimedia_found st) (map_fallback st + 1))
          else
            main_loop rest
              (mk_progress (rows st ++ [NoImage name])%list
                 (wikimedia_found st) (map_fallback st))
      end
  end.

(** The queries that [main] tries for a name, in their order. *)
Definition queries (name : pyval) : list string :=
  [format name +:+ " Cuyahoga Valley"; format name +:+ " Ohio"; format name].

(** A row that is right for a destination.  A row 'wikimedia' shows the
    URL, not empty, that the first of the queries to give one gave; a row
    'map' or 'none' is written when no query gave a URL, the first when
    both coordinates count as true, with the map of these coordinates, the
    second otherwise. *)
Definition image_row_right (row : image_row) (dest : gmap string pyval)
  : Prop :=
  let lat := GenerateMapTiles.get dest "latitude" in
  let lng := GenerateMapTiles.get dest "longitude" in
  match row with
  | Wikimedia name image_url =>
      dest !! "name" = Some name
      /\ image_url <> ""
      /\ exists (i : nat) q,
           queries name !! i = Some q
           /\ search_wikimedia q = Some image_url
           /\ forall (j : nat) q', (j < i)%nat -> queries name !! j = Some q' ->
                found (search_wikimedia q') = false
  | MapTile name map_url =>
      dest !! "name" = Some name
      /\ (forall q, q ∈ queries name -> found (search_wikimedia q) = false)
      /\ truthy lat && truthy lng = true
      /\ GenerateMapTiles.get_map_tile_url str_to_float lat lng 15 = Ok map_url
  | NoImage name =>
      dest !! "name" = Some name
      /\ (forall q, q ∈ queries name -> found (search_wikimedia q) = false)
      /\ truthy lat && truthy lng = false
  end.

Definition is_wikimedia (row : image_row) : bool :=
  match row with Wikimedia _ _ => true | _ => false end.

Definition is_map_tile (row : image_row) : bool :=
  match row with MapTile _ _ => true | _ => false end.

End Main.

End FindImages.

(** ** Fixed services for the examples *)

Section Examples.
Local Open Scope string_scope.

Definition digit_of (c : ascii) : option N :=
  let n := N_of_ascii c in
  if ((48 <=? n) && (n <=? 57))%N then Some (n - 48)%N else None.

Fixpoint digits (s : string) (acc : N) : option N :=
  match s with
  | "" => Some acc
  | String c s' => d ← digit_of c; digits s' (10 * acc + d)%N
  end.

(** The sign, the digits read as one number, and the count of digits
    after the point, of a plain decimal literal: an optional sign, digits,
    and an optional point followed by digits, with a digit somewhere. *)
Definition decimal_parts (s : string) : option (bool * N * nat) :=
  let '(negative, body) :=
    match s with
    | String "-" t => (true, t)
    | String "+" t => (false, t)
    | _ => (false, s)
    end in
  match split "." body with
  | [i] =>
      if String.eqb i "" then None
      else n ← digits i 0; Some (negative, n, 0%nat)
  | [i; f] =>
      if String.eqb i "" && String.eqb f "" then None
      else n ← digits (i +:+ f) 0; Some (negative, n, String.length f)
  | _ => None
  end.

(** How [float] reads a plain decimal literal.  Text without any digit is
    refused, as [float] does.  The other forms that [float] accepts
    (exponents, blanks around the number, underscores, [inf], [nan]) are
    outside this reading and are not used below. *)
Definition decimal_float (s : string) : option R :=
  match decimal_parts s with
  | Some (negative, n, k) =>
      Some ((if negative : bool then -1 else 1) * IZR (Z.of_N n) / 10 ^ k)%R
  | None => None
  end.

(** No answer from the USGS service, and from Nominatim. *)
Definition no_usgs_reply : R -> R -> option string := fun _ _ => None.
Definition no_display_name : R -> R -> option string := fun _ _ => None.

(** An answer of Nominatim within Summit County, for every point. *)
Definition summit_display_name : R -> R -> option string :=
  fun _ _ => Some "Boston Store, Boston Mills Road, Summit County, Ohio".

(** Destinations as the API lists them. *)
Definition boston_store : gmap string pyval :=
  {[ "name" := PStr "Boston Store";
     "latitude" := PStr "41.25"; "longitude" := PStr "-81.55" ]}.

Definition stanford_house : gmap string pyval :=
  {[ "name" := PStr "Stanford House";
     "latitude" := PStr "41.43"; "longitude" := PStr "-81.55" ]}.

Definition hale_farm : gmap string pyval :=
  {[ "name" := PStr "Hale Farm";
     "latitude" := PStr ""; "longitude" := PStr "-81.55" ]}.

Definition peninsula_dam : gmap string pyval :=
  {[ "name" := PStr "Peninsula Dam";
     "latitude" := PStr "41.30"; "longitude" := PStr "-81.40" ]}.

(** A record without the field [latitude], and one whose longitude is not
    a number. *)
Definition no_latitude_field : gmap string pyval :=
  {[ "name" := PStr "Boston Store"; "longitude" := PStr "-81.55" ]}.


(** A point on the equator with its coordinates sent as numbers, a water
    feature without coordinates, and a record whose name is null. *)
Definition equator_marker : gmap string pyval :=
  {[ "name" := PStr "Equator Marker";
     "latitude" := PNum 0; "longitude" := PNum (-78.45) ]}.

Definition beaver_marsh : gmap string pyval :=
  {[ "name" := PStr "Beaver Marsh";
     "latitude" := PStr ""; "longitude" := PStr "" ]}.

Definition nameless : gmap string pyval :=
  {[ "name" := PNone;
     "latitude" := PStr "41.25"; "longitude" := PStr "-81.55" ]}.

(** A record whose longitude is text that is not a number, next to a
    latitude that is one. *)
Definition north_longitude : gmap string pyval :=
  {[ "name" := PStr "Boston Store";
     "latitude" := PStr "41.25"; "longitude" := PStr "north" ]}.

(** Pages of an answer of Wikimedia: one without [imageinfo], one with a
    small image and one with a large one; and the same with a page whose
    [imageinfo] is the empty list. *)
Definition large_image : FindImages.info :=
  FindImages.mk_info (Some 1024%Z) (Some 768%Z)
    (Some "https://upload.wikimedia.org/thumb/Boston_Store.jpg")
    (Some "https://upload.wikimedia.org/Boston_Store.jpg").

Definition small_image : FindImages.info :=
  FindImages.mk_info (Some 200%Z) (Some 100%Z)
    (Some "https://upload.wikimedia.org/thumb/Icon.png") None.

Definition boston_pages : list (string * FindImages.page) :=
  [("101", FindImages.mk_page None);
   ("102", FindImages.mk_page (Some [small_image]));
   ("103", FindImages.mk_page (Some [large_image]))].

Definition spoilt_pages : list (string * FindImages.page) :=
  [("103", FindImages.mk_page (Some [large_image]));
   ("104", FindImages.mk_page (Some []))].

(** Wikimedia answers the query "Boston Store Ohio" with the pages above
    and every other query with an answer without pages. *)
Definition wikimedia_boston
  : string -> option (option (list (string * FindImages.page))) :=
  fun query =>
    if String.eqb query "Boston Store Ohio" then Some (Some boston_pages)
    else Some None.

Definition wikimedia_spoilt
  : string -> option (option (list (string * FindImages.page))) :=
  fun _ => Some (Some spoilt_pages).

(** The names of the examples are text, so that [str] of a float is not
    called; a fixed text stands for it. *)
Definition number_text : R -> string := fun _ => "0.0".

(** Lines of an answer of the USGS service: fields separated by tabs. *)
Definition rdb_line (fields : list string) : string :=
  String.concat (String "009" "") fields.

Definition old_portage_line : string :=
  rdb_line ["USGS"; "04206000"; "CUYAHOGA R AT OLD PORTAGE"; "ST";
            "41.13"; "-81.55"].

(** A line that ends after the latitude. *)
Definition short_line : string :=
  rdb_line ["USGS"; "04206000"; "CUYAHOGA R AT OLD PORTAGE"; "ST"; "41.13"].

(** An answer of the service with a comment, a site and an empty line. *)
Definition usgs_answer : string :=
  String.concat (String "010" "") ["# a comment"; old_portage_line; ""].

Definition old_portage_reply : R -> R -> option string :=
  fun _ _ => Some usgs_answer.

Definition short_reply : R -> R -> option string :=
  fun _ _ => Some short_line.


End Examples.

(** ** Facts on the distance *)

Section HaversineFacts.
Local Open Scope R_scope.

Lemma haversine_a_sym lat1 lon1 lat2 lon2 :
  haversine_a lat1 lon1 lat2 lon2 = haversine_a lat2 lon2 lat1 lon1.
Proof.
  unfold haversine_a, PyMath.radians.
  replace ((lat1 - lat2) * (PI / 180) / 2)
    with (- ((lat2 - lat1) * (PI / 180) / 2)) by lra.
  replace ((lon1 - lon2) * (PI / 180) / 2)
    with (- ((lon2 - lon1) * (PI / 180) / 2)) by lra.
  rewrite !sin_neg. ring.
Qed.

(** Over the reals [a] is one half of [1 - cos] of the central angle. *)
Lemma haversine_a_central lat1 lon1 lat2 lon2 :
  let p1 := PyMath.radians lat1 in
  let p2 := PyMath.radians lat2 in
  let dl := PyMath.radians (lon2 - lon1) in
  haversine_a lat1 lon1 lat2 lon2
  = (1 - (sin p1 * sin p2 + cos p1 * cos p2 * cos dl)) / 2.
Proof.
  intros p1 p2 dl. unfold haversine_a.
  replace (PyMath.radians (lat2 - lat1)) with (p2 - p1)
    by (unfold p1, p2, PyMath.radians; lra).
  fold p1 p2 dl.
  assert (Hh : forall x, sin (x / 2) ^ 2 = (1 - cos x) / 2).
  { intros x. replace x with (2 * (x / 2)) at 2 by lra.
    rewrite cos_2a_sin. lra. }
  rewrite !Hh, cos_minus. lra.
Qed.

Lemma haversine_a_range lat1 lon1 lat2 lon2 :
  0 <= haversine_a lat1 lon1 lat2 lon2 <= 1.
Proof.
  rewrite haversine_a_central. cbv zeta.
  set (p1 := PyMath.radians lat1). set (p2 := PyMath.radians lat2).
  set (dl := PyMath.radians (lon2 - lon1)).
  pose proof (sin2_cos2 p1) as H1. pose proof (sin2_cos2 p2) as H2.
  pose proof (COS_bound dl) as [Hk1 Hk2].
  unfold Rsqr in H1, H2.
  set (s1 := sin p1) in *. set (c1 := cos p1) in *.
  set (s2 := sin p2) in *. set (c2 := cos p2) in *.
  set (k := cos dl) in *.
  assert (Hup : s1 * s2 + c1 * c2 * k <= 1).
  { assert (0 <= (s1 - s2) ^ 2 + (c1 - k * c2) ^ 2 + c2 ^ 2 * (1 - k ^ 2)).
    { assert (0 <= (s1 - s2) ^ 2) by apply pow2_ge_0.
      assert (0 <= (c1 - k * c2) ^ 2) by apply pow2_ge_0.
      assert (0 <= c2 ^ 2) by apply pow2_ge_0.
      assert (0 <= 1 - k ^ 2) by nra. nra. }
    nra. }
  assert (Hlo : -1 <= s1 * s2 + c1 * c2 * k).
  { assert (0 <= (s1 + s2) ^ 2 + (c1 + k * c2) ^ 2 + c2 ^ 2 * (1 - k ^ 2)).
    { assert (0 <= (s1 + s2) ^ 2) by apply pow2_ge_0.
      assert (0 <= (c1 + k * c2) ^ 2) by apply pow2_ge_0.
      assert (0 <= c2 ^ 2) by apply pow2_ge_0.
      assert (0 <= 1 - k ^ 2) by nra. nra. }
    nra. }
  lra.
Qed.

(** With real arithmetic neither square root leaves its domain, so the
    function is total and its value is given by the formula.  The source
    does not clamp [a]; that the sum of the rounded terms can exceed 1 in
    binary64 is a matter of rounding, which real numbers do not show. *)
Lemma haversine_distance_eq lat1 lon1 lat2 lon2 :
  haversine_distance lat1 lon1 lat2 lon2 = Ok (haversine_m lat1 lon1 lat2 lon2).
Proof.
  unfold haversine_m.
  pose proof (haversine_a_range lat1 lon1 lat2 lon2) as [H0 H1].
  unfold haversine_distance, PyMath.sqrt. cbv zeta.
  destruct (Rle_dec 0 (haversine_a lat1 lon1 lat2 lon2)); [|lra].
  cbn. destruct (Rle_dec 0 (1 - haversine_a lat1 lon1 lat2 lon2)); [|lra].
  reflexivity.
Qed.

Lemma haversine_distance_returns lat1 lon1 lat2 lon2 :
  returns (haversine_distance lat1 lon1 lat2 lon2).
Proof. rewrite haversine_distance_eq. eexists; reflexivity. Qed.


End HaversineFacts.

#[global] Arguments haversine_distance : simpl never.

(** ** Facts on the error monad *)

Lemma bind_Ok {A B : Type} (m : result A) (k : A -> result B) (b : B) :
  m ≫= k = Ok b -> exists a, m = Ok a /\ k a = Ok b.
Proof. destruct m as [a|e]; cbn; [eauto | discriminate]. Qed.

Lemma bind_Ok_l {A B : Type} (m : result A) (k : A -> result B) (a : A) :
  m = Ok a -> m ≫= k = k a.
Proof. intros ->. reflexivity. Qed.

(** ** Facts on strings *)

Section PyStrFacts.
Local Open Scope string_scope.

Lemma startswith_spec p s :
  startswith p s = true <-> exists post, s = p +:+ post.
Proof.
  revert s. induction p as [|a p IH]; intros s; cbn.
  - split; [intros _; exists s; reflexivity | reflexivity].
  - destruct s as [|b s]; cbn.
    + split; [discriminate | intros [post H]; discriminate].
    + rewrite andb_true_iff, Ascii.eqb_eq, IH. split.
      * intros [-> [post ->]]. exists post. reflexivity.
      * intros [post H]. injection H as -> ->. split; [reflexivity | eauto].
Qed.

Lemma str_in_spec k s : str_in k s = true <-> substring_of k s.
Proof.
  unfold substring_of. induction s as [|c s IH]; cbn.
  - rewrite orb_false_r, startswith_spec. split.
    + intros [post H]. exists "", post. exact H.
    + intros [pre [post H]]. destruct pre; [exists post; exact H | discriminate].
  - rewrite orb_true_iff, startswith_spec, IH. split.
    + intros [[post H] | [pre [post H]]].
      * exists "", post. exact H.
      * exists (String c pre), post. cbn. rewrite H. reflexivity.
    + intros [pre [post H]]. destruct pre as [|c' pre]; cbn in H.
      * left. exists post. exact H.
      * right. injection H as -> ->. eauto.
Qed.

Lemma any_keyword_in_spec keywords s :
  any_keyword_in keywords s = true
  <-> exists k, In k keywords /\ substring_of k s.
Proof.
  unfold any_keyword_in. rewrite existsb_exists.
  split; intros [k [Hin Hk]]; exists k; split; auto; apply str_in_spec; auto.
Qed.

(** The classifier of [validate_water_features.py] answers by the thirteen
    terms. *)
Lemma water_features_is_water_feature_spec name :
  ValidateWaterFeatures.is_water_feature name = true
  <-> exists k,
      In k ["dam"; "river"; "lake"; "pond"; "marsh"; "falls"; "waterfall";
            "creek"; "canal"; "lock"; "aqueduct"; "reservoir"; "gorge"]
      /\ substring_of k (lower name).
Proof. apply any_keyword_in_spec. Qed.

(** The classifier of [validate_coordinates.py] answers by twelve terms:
    its list has no ["gorge"]. *)
Lemma coordinates_is_water_feature_spec name :
  ValidateCoordinates.is_water_feature name = true
  <-> exists k,
      In k ["dam"; "river"; "lake"; "pond"; "marsh"; "falls"; "waterfall";
            "creek"; "canal"; "lock"; "aqueduct"; "reservoir"]
      /\ substring_of k (lower name).
Proof. apply any_keyword_in_spec. Qed.

Lemma is_water_feature_examples :
  ValidateWaterFeatures.is_water_feature "Brandywine Falls" = true
  /\ ValidateWaterFeatures.is_water_feature "Beaver Marsh" = true
  /\ ValidateWaterFeatures.is_water_feature "Boston Store" = false
  /\ ValidateCoordinates.is_water_feature "Brandywine Falls" = true
  /\ ValidateCoordinates.is_water_feature "Beaver Marsh" = true
  /\ ValidateCoordinates.is_water_feature "Boston Store" = false.
Proof. repeat split; reflexivity. Qed.

(** C2: the name "Gorge Parkway" contains the term "gorge" once lowered,
    and the classifier of [validate_water_features.py] accepts it, but the
    classifier of [validate_coordinates.py], the one the orchestrator
    calls, rejects it. *)
Theorem is_water_feature_gorge :
  substring_of "gorge" (lower "Gorge Parkway")
  /\ ValidateWaterFeatures.is_water_feature "Gorge Parkway" = true
  /\ ValidateCoordinates.is_water_feature "Gorge Parkway" = false.
Proof.
  split; [|split; reflexivity].
  exists "", " parkway". reflexivity.
Qed.

End PyStrFacts.

(** ** The nearest-site matcher of [validate_water_features.py] *)

Section FindNearest.
Local Open Scope R_scope.
Import ValidateWaterFeatures.

(** The distance from the target to a site, as a real number. *)
Local Abbreviation dist lat lng site :=
  (haversine_m lat lng (site_lat site) (site_lng site)).

Lemma dist_eq lat lng site :
  haversine_distance lat lng (site_lat site) (site_lng site)
  = Ok (dist lat lng site).
Proof. apply haversine_distance_eq. Qed.

Lemma fin_lt_trans x y m : x < y -> fin_lt y m = true -> fin_lt x m = true.
Proof.
  destruct m as [r|]; cbn; [|reflexivity].
  rewrite !bool_decide_eq_true. lra.
Qed.

Lemma fin_lt_false_le x y m : fin_lt y m = false -> fin_lt x m = true -> x < y.
Proof.
  destruct m as [r|]; cbn; [|discriminate].
  rewrite bool_decide_eq_false, bool_decide_eq_true. lra.
Qed.

(** What the loop does from any state: either no site of the list beats
    the running minimum and the state is returned as it was, or the state
    returned is the first site of the list that attains the least
    distance of the list, which beats the running minimum. *)
Lemma find_nearest_loop_spec lat lng sites nearest min_distance :
  exists nearest' min_distance',
    find_nearest_loop lat lng sites nearest min_distance
    = Ok (nearest', min_distance')
    /\ ((nearest' = nearest /\ min_distance' = min_distance
         /\ forall s, s ∈ sites -> fin_lt (dist lat lng s) min_distance = false)
        \/ exists (i : nat) s,
             sites !! i = Some s
             /\ nearest' = Some s
             /\ min_distance' = Fin (dist lat lng s)
             /\ fin_lt (dist lat lng s) min_distance = true
             /\ (forall s', s' ∈ sites -> dist lat lng s <= dist lat lng s')
             /\ (forall (j : nat) s', (j < i)%nat -> sites !! j = Some s' ->
                   dist lat lng s < dist lat lng s')).
Proof.
  revert nearest min_distance.
  induction sites as [|site rest IH]; intros nearest min_distance.
  - exists nearest, min_distance. split; [reflexivity|]. left.
    repeat split. intros s Hs. inversion Hs.
  - cbn [find_nearest_loop]. rewrite dist_eq. cbn.
    destruct (fin_lt (dist lat lng site) min_distance) eqn:Hlt.
    + destruct (IH (Some site) (Fin (dist lat lng site)))
        as (n' & m' & Heq & [(-> & -> & Hall) | (i & s & Hi & -> & -> & Hs & Hmin & Hfirst)]).
      * exists (Some site), (Fin (dist lat lng site)). split; [exact Heq|].
        right. exists 0%nat, site. repeat split; auto.
        -- intros s' Hs'. apply elem_of_cons in Hs' as [-> | Hs']; [lra|].
           specialize (Hall s' Hs'). cbn in Hall.
           apply bool_decide_eq_false in Hall. lra.
        -- intros j s' Hj. lia.
      * exists (Some s), (Fin (dist lat lng s)). split; [exact Heq|].
        cbn in Hs. apply bool_decide_eq_true in Hs.
        right. exists (S i), s. repeat split; auto.
        -- eapply fin_lt_trans; eauto.
        -- intros s' Hs'. apply elem_of_cons in Hs' as [-> | Hs']; [lra | auto].
        -- intros [|j] s' Hj Hl; cbn in Hl.
           ++ injection Hl as <-. exact Hs.
           ++ apply (Hfirst j); [lia | exact Hl].
    + destruct (IH nearest min_distance)
        as (n' & m' & Heq & [(-> & -> & Hall) | (i & s & Hi & -> & -> & Hs & Hmin & Hfirst)]).
      * exists nearest, min_distance. split; [exact Heq|]. left.
        repeat split. intros s Hs.
        apply elem_of_cons in Hs as [-> | Hs]; auto.
      * exists (Some s), (Fin (dist lat lng s)). split; [exact Heq|].
        pose proof (fin_lt_false_le _ _ _ Hlt Hs) as Hsd.
        right. exists (S i), s. repeat split; auto.
        -- intros s' Hs'. apply elem_of_cons in Hs' as [-> | Hs']; [lra | auto].
        -- intros [|j] s' Hj Hl; cbn in Hl.
           ++ injection Hl as <-. exact Hsd.
           ++ apply (Hfirst j); [lia | exact Hl].
Qed.


(** C5: on the empty collection the matcher returns the absent site
    [None], with the distance [float('inf')], and raises nothing. *)
Theorem find_nearest_usgs_site_empty (lat lng : R) :
  find_nearest_usgs_site lat lng [] = Ok (None, Inf).
Proof. reflexivity. Qed.

End FindNearest.

(** ** A lower bound of the distance by the difference of latitude *)

Section HaversineBound.
Local Open Scope R_scope.

Lemma atan_le x y : x <= y -> atan x <= atan y.
Proof.
  intros [Hlt | ->]; [left; apply atan_increasing; exact Hlt | right; reflexivity].
Qed.

Lemma atan2_lower u sa sb :
  0 <= u <= PI / 2 -> sin u <= sa -> 0 <= sb <= cos u -> (sb = 0 -> 0 < sa) ->
  u <= PyMath.atan2 sa sb.
Proof.
  intros [Hu0 Hu1] Hsa [Hsb0 Hsb1] Hz. unfold PyMath.atan2.
  destruct (Rlt_dec 0 sb) as [Hpos|Hnpos].
  - assert (Hu : u < PI / 2).
    { destruct Hu1 as [Hu1 | Hu1]; [exact Hu1|].
      rewrite Hu1, cos_PI2 in Hsb1. lra. }
    assert (Hcos : 0 < cos u) by (apply cos_gt_0; lra).
    assert (Hsin : 0 <= sin u) by (apply sin_ge_0; lra).
    rewrite <- (atan_tan u) at 1 by lra.
    apply atan_le. unfold tan.
    apply Rle_trans with (sin u / sb).
    + unfold Rdiv. apply Rmult_le_compat_l; [exact Hsin|].
      apply Rinv_le_contravar; assumption.
    + unfold Rdiv. apply Rmult_le_compat_r; [|exact Hsa].
      left. apply Rinv_0_lt_compat. exact Hpos.
  - assert (Hsb : sb = 0) by lra. specialize (Hz Hsb).
    destruct (Rlt_dec sb 0); [lra|].
    destruct (Rlt_dec 0 sa); lra.
Qed.

(** For latitudes within [[-90, 90]], going from the lower to the higher
    one, the distance is at least the arc between the two parallels. *)
Lemma haversine_m_lower lat1 lon1 lat2 lon2 :
  -90 <= lat1 -> lat1 <= lat2 -> lat2 <= 90 ->
  6371000 * PyMath.radians (lat2 - lat1) <= haversine_m lat1 lon1 lat2 lon2.
Proof.
  intros H1 H12 H2. pose proof PI_RGT_0 as Hpi.
  pose proof (haversine_a_range lat1 lon1 lat2 lon2) as [Ha0 Ha1].
  unfold haversine_m. cbv zeta.
  set (a := haversine_a lat1 lon1 lat2 lon2) in *.
  set (u := PyMath.radians (lat2 - lat1) / 2).
  assert (Hu : 0 <= u <= PI / 2) by (unfold u, PyMath.radians; split; nra).
  assert (Hsin : 0 <= sin u) by (apply sin_ge_0; lra).
  assert (Hcos : 0 <= cos u) by (apply cos_ge_0; lra).
  assert (Hc1 : 0 <= cos (PyMath.radians lat1))
    by (apply cos_ge_0; unfold PyMath.radians; nra).
  assert (Hc2 : 0 <= cos (PyMath.radians lat2))
    by (apply cos_ge_0; unfold PyMath.radians; nra).
  assert (Hlow : sin u ^ 2 <= a).
  { unfold a, haversine_a. cbv zeta. fold u.
    pose proof (pow2_ge_0 (sin (PyMath.radians (lon2 - lon1) / 2))).
    assert (0 <= cos (PyMath.radians lat1) * cos (PyMath.radians lat2))
      by (apply Rmult_le_pos; assumption).
    nra. }
  assert (Hsc : sin u ^ 2 + cos u ^ 2 = 1).
  { pose proof (sin2_cos2 u) as Hs. unfold Rsqr in Hs. lra. }
  assert (Hgoal : u <= PyMath.atan2 (R_sqrt.sqrt a) (R_sqrt.sqrt (1 - a))).
  { apply atan2_lower; [exact Hu | | split | ].
    - rewrite <- (sqrt_pow2 (sin u)) by exact Hsin.
      apply sqrt_le_1_alt. exact Hlow.
    - apply sqrt_pos.
    - rewrite <- (sqrt_pow2 (cos u)) by exact Hcos.
      apply sqrt_le_1_alt. lra.
    - intros Hz. apply sqrt_eq_0 in Hz; [|lra].
      replace a with 1 by lra. rewrite sqrt_1. lra. }
  unfold u in Hgoal. lra.
Qed.

End HaversineBound.

(** ** The check against known coordinates of [coordinate_report.py] *)

Section Reconciler.
Local Open Scope R_scope.
Local Open Scope string_scope.
Import CoordinateReport.

Lemma known_peninsula_dam :
  known (PStr "Peninsula Dam") = Some (41.2425, -81.55).
Proof. reflexivity. Qed.

(** The match on names is exact: another spelling is not in the table. *)
Lemma known_case_sensitive : known (PStr "peninsula dam") = None.
Proof. reflexivity. Qed.

Lemma peninsula_dam_distance :
  100 < haversine_m 41.30 (-81.40) 41.2425 (-81.55).
Proof.
  assert (Hsym : haversine_m 41.30 (-81.40) 41.2425 (-81.55)
                 = haversine_m 41.2425 (-81.55) 41.30 (-81.40)).
  { unfold haversine_m. cbv zeta. rewrite haversine_a_sym. reflexivity. }
  rewrite Hsym.
  eapply Rlt_le_trans; [|apply haversine_m_lower; lra].
  unfold PyMath.radians. pose proof PI2_1. lra.
Qed.

Lemma known_spec name k :
  known name = Some k
  <-> exists s, name = PStr s /\ KNOWN_COORDINATES !! s = Some k.
Proof.
  split.
  - destruct name as [|s|r]; cbn; try discriminate. eauto.
  - intros (s & -> & H). exact H.
Qed.

Lemma getitem_Some {V : Type} (d : gmap string V) key v :
  d !! key = Some v -> getitem d key = Ok v.
Proof. unfold getitem. intros ->. reflexivity. Qed.

Lemma check_known_spec name lat lng issues :
  check_known name lat lng issues
  = match known name with
    | Some k =>
        if bool_decide (haversine_m lat lng k.1 k.2 > 100)%R
        then Ok (issues ++ [mk_issue name (lat, lng) k
                              (haversine_m lat lng k.1 k.2) "Known/USGS"])%list
        else Ok issues
    | None => Ok issues
    end.
Proof.
  unfold check_known. destruct (known name) as [[known_lat known_lng]|]; [|reflexivity].
  rewrite haversine_distance_eq. reflexivity.
Qed.

Lemma check_destination_coords str_to_float dest name vlat vlng lat lng issues :
  dest !! "name" = Some name ->
  dest !! "latitude" = Some vlat ->
  dest !! "longitude" = Some vlng ->
  float_if_set str_to_float vlat = Ok (Some lat) ->
  float_if_set str_to_float vlng = Ok (Some lng) ->
  check_destination str_to_float dest issues = check_known name lat lng issues.
Proof.
  intros Hn Hlat Hlng Hflat Hflng. unfold check_destination.
  rewrite (getitem_Some _ _ _ Hn), (getitem_Some _ _ _ Hlat),
    (getitem_Some _ _ _ Hlng). cbn.
  rewrite Hflat. cbn. rewrite Hflng. reflexivity.
Qed.


End Reconciler.

(** ** Facts on [sorted] *)

Section SortedFacts.
Context {A : Type} (key : A -> R).
Local Open Scope R_scope.

Lemma insert_by_perm x l : Permutation (x :: l) (insert_by key x l).
Proof.
  induction l as [|y l IH]; cbn; [reflexivity|].
  case_bool_decide; [reflexivity|].
  rewrite perm_swap. apply perm_skip. exact IH.
Qed.

Lemma sorted_perm l : Permutation l (sorted key l).
Proof.
  induction l as [|x l IH]; cbn; [reflexivity|].
  rewrite <- insert_by_perm. apply perm_skip. exact IH.
Qed.




End SortedFacts.

(** ** The list of nearby sites of [validate_coordinates.py] *)

Section NearbySites.
Local Open Scope R_scope.
Import ValidateCoordinates.

Variable str_to_float : string -> option R.
Variable usgs_reply : R -> R -> option string.




End NearbySites.

(** ** The orchestrator of [validate_coordinates.py] *)

Section Orchestrator.
Local Open Scope string_scope.
Import ValidateCoordinates.

Variable str_to_float : string -> option R.
Variable usgs_reply : R -> R -> option string.
Variable nominatim_display_name : R -> R -> option string.

Local Abbreviation validate_destination :=
  (ValidateCoordinates.validate_destination
     str_to_float usgs_reply nominatim_display_name).
Local Abbreviation reverse_geocode :=
  (ValidateCoordinates.reverse_geocode nominatim_display_name).
Local Abbreviation main_loop :=
  (ValidateCoordinates.main_loop
     str_to_float usgs_reply nominatim_display_name).
Local Abbreviation readable := (ValidateCoordinates.readable str_to_float).
Local Abbreviation water_issues :=
  (ValidateCoordinates.water_issues str_to_float usgs_reply).
Local Abbreviation geocode_issues :=
  (ValidateCoordinates.geocode_issues nominatim_display_name).

Lemma float_if_set_blank v : blank v -> float_if_set str_to_float v = Ok None.
Proof. intros [-> | ->]; reflexivity. Qed.

Lemma float_if_set_readable v :
  readable v -> exists o, float_if_set str_to_float v = Ok o.
Proof.
  intros [Hb | [r Hr]].
  - exists None. apply float_if_set_blank, Hb.
  - unfold float_if_set. destruct (truthy v); [|eauto].
    rewrite Hr. eexists. reflexivity.
Qed.

(** The first part of the function: reading the three fields. *)
Lemma validate_destination_read dest name vlat vlng olat olng :
  dest !! "name" = Some name ->
  dest !! "latitude" = Some vlat ->
  dest !! "longitude" = Some vlng ->
  float_if_set str_to_float vlat = Ok olat ->
  float_if_set str_to_float vlng = Ok olng ->
  (olat = None \/ olng = None) ->
  validate_destination dest = Ok missing.
Proof.
  intros Hn Hlat Hlng Hflat Hflng Hnone.
  unfold ValidateCoordinates.validate_destination. cbv zeta.
  rewrite (bind_Ok_l _ _ _ (getitem_Some _ _ _ Hn)).
  rewrite (bind_Ok_l _ _ _ (getitem_Some _ _ _ Hlat)).
  rewrite (bind_Ok_l _ _ _ Hflat).
  rewrite (bind_Ok_l _ _ _ (getitem_Some _ _ _ Hlng)).
  rewrite (bind_Ok_l _ _ _ Hflng).
  destruct Hnone as [-> | ->]; [reflexivity | destruct olat; reflexivity].
Qed.


(** The second part of the function, for a destination with a name that is
    text and with both coordinates: it returns, and its issues are those
    of the three checks in turn. *)
Lemma validate_destination_coords dest n vlat vlng lat lng :
  dest !! "name" = Some (PStr n) ->
  dest !! "latitude" = Some vlat ->
  dest !! "longitude" = Some vlng ->
  float_if_set str_to_float vlat = Ok (Some lat) ->
  float_if_set str_to_float vlng = Ok (Some lng) ->
  let issues :=
    (region_issues lat lng ++ water_issues n lat lng ++ geocode_issues lat lng)%list in
  exists suggestions,
    validate_destination dest
    = Ok (mk_validation (status_of issues) issues suggestions).
Proof.
  intros Hn Hlat Hlng Hflat Hflng.
  unfold ValidateCoordinates.validate_destination. cbv zeta.
  rewrite (bind_Ok_l _ _ _ (getitem_Some _ _ _ Hn)).
  rewrite (bind_Ok_l _ _ _ (getitem_Some _ _ _ Hlat)).
  rewrite (bind_Ok_l _ _ _ Hflat).
  rewrite (bind_Ok_l _ _ _ (getitem_Some _ _ _ Hlng)).
  rewrite (bind_Ok_l _ _ _ Hflng).
  rewrite (bind_Ok_l _ _ n eq_refl).
  unfold region_issues, water_issues, geocode_issues. cbv zeta.
  destruct (is_within_bounds lat lng);
    destruct (is_water_feature n);
    try destruct (get_nearby_usgs_sites str_to_float usgs_reply lat lng)
      as [|nearest others];
    try destruct (bool_decide (distance_m nearest > 500)%R);
    destruct (String.eqb (reverse_geocode lat lng) "");
    destruct (str_in "Summit" (reverse_geocode lat lng));
    destruct (str_in "Cuyahoga" (reverse_geocode lat lng));
    eexists; reflexivity.
Qed.

(** When the name is not that of a water feature and the geocoder gives
    no name, only the check of the bounds contributes. *)
Lemma validate_destination_plain dest n vlat vlng lat lng :
  dest !! "name" = Some (PStr n) ->
  dest !! "latitude" = Some vlat ->
  dest !! "longitude" = Some vlng ->
  float_if_set str_to_float vlat = Ok (Some lat) ->
  float_if_set str_to_float vlng = Ok (Some lng) ->
  is_water_feature n = false ->
  reverse_geocode lat lng = "" ->
  validate_destination dest
  = Ok (mk_validation (status_of (region_issues lat lng))
          (region_issues lat lng) []).
Proof.
  intros Hn Hlat Hlng Hflat Hflng Hw Hg.
  unfold ValidateCoordinates.validate_destination. cbv zeta.
  rewrite (bind_Ok_l _ _ _ (getitem_Some _ _ _ Hn)).
  rewrite (bind_Ok_l _ _ _ (getitem_Some _ _ _ Hlat)).
  rewrite (bind_Ok_l _ _ _ Hflat).
  rewrite (bind_Ok_l _ _ _ (getitem_Some _ _ _ Hlng)).
  rewrite (bind_Ok_l _ _ _ Hflng).
  rewrite (bind_Ok_l _ _ n eq_refl).
  rewrite Hw, Hg. unfold region_issues.
  destruct (is_within_bounds lat lng); reflexivity.
Qed.

(** The function returns whenever the name is text and the two
    coordinate fields are there and can be read. *)
Lemma validate_destination_returns dest n vlat vlng olat olng :
  dest !! "name" = Some (PStr n) ->
  dest !! "latitude" = Some vlat ->
  dest !! "longitude" = Some vlng ->
  float_if_set str_to_float vlat = Ok olat ->
  float_if_set str_to_float vlng = Ok olng ->
  returns (validate_destination dest).
Proof.
  intros Hn Hlat Hlng Hflat Hflng.
  destruct olat as [lat|], olng as [lng|].
  - destruct (validate_destination_coords dest n vlat vlng lat lng
                Hn Hlat Hlng Hflat Hflng) as [suggestions Hr].
    eexists. exact Hr.
  - exists missing. eapply validate_destination_read; eauto.
  - exists missing. eapply validate_destination_read; eauto.
  - exists missing. eapply validate_destination_read; eauto.
Qed.

Lemma status_of_cases issues :
  (status_of issues = "OK" /\ issues = [])
  \/ (status_of issues = "WARNING" /\ issues <> []).
Proof. destruct issues; [left | right]; split; cbn; congruence. Qed.

(** C7: for a destination with a name and both coordinates, the function
    returns a result whose status is WARNING exactly when its list of
    issues is not empty and OK exactly when it is empty.  When the point is
    within the bounds, the name is not that of a water feature, and the
    geocoded name is empty or mentions Summit or Cuyahoga, the status is OK
    and there is no issue; the table of known coordinates plays no part in
    this function. *)
Theorem validate_destination_status (dest : gmap string pyval) (n : string)
  (vlat vlng : pyval) (lat lng : R) :
  dest !! "name" = Some (PStr n) ->
  dest !! "latitude" = Some vlat ->
  dest !! "longitude" = Some vlng ->
  float_if_set str_to_float vlat = Ok (Some lat) ->
  float_if_set str_to_float vlng = Ok (Some lng) ->
  exists r,
    validate_destination dest = Ok r
    /\ (status r = "WARNING" <-> issues r <> [])
    /\ (status r = "OK" <-> issues r = [])
    /\ (is_within_bounds lat lng = true ->
        is_water_feature n = false ->
        (reverse_geocode lat lng = ""
         \/ substring_of "Summit" (reverse_geocode lat lng)
         \/ substring_of "Cuyahoga" (reverse_geocode lat lng)) ->
        status r = "OK" /\ issues r = []).
Proof.
  intros Hn Hlat Hlng Hflat Hflng.
  destruct (validate_destination_coords dest n vlat vlng lat lng
              Hn Hlat Hlng Hflat Hflng) as [suggestions Hr].
  cbv zeta in Hr. eexists. split; [exact Hr|]. cbn [status issues].
  set (l := (region_issues lat lng ++ water_issues n lat lng
             ++ geocode_issues lat lng)%list).
  split; [|split].
  - destruct (status_of_cases l) as [[-> ->] | [-> Hne]];
      split; intros; congruence.
  - destruct (status_of_cases l) as [[-> ->] | [-> Hne]];
      split; intros; congruence.
  - intros Hb Hw Hg.
    assert (Hl : l = []).
    { unfold l, region_issues, water_issues, geocode_issues. cbv zeta.
      rewrite Hb, Hw. cbn [app].
      destruct Hg as [-> | [Hg | Hg]]; [reflexivity | |];
        apply str_in_spec in Hg; rewrite Hg;
        rewrite ?andb_false_r; reflexivity. }
    rewrite Hl. split; reflexivity.
Qed.

Lemma getitem_Ok {V : Type} (d : gmap string V) key v :
  getitem d key = Ok v -> d !! key = Some v.
Proof. unfold getitem. destruct (d !! key); congruence. Qed.

(** Every result that the function returns is the MISSING result or has
    the status that its issues call for. *)
Lemma validate_destination_cases dest r :
  validate_destination dest = Ok r ->
  r = missing
  \/ (status r = "OK" /\ issues r = [])
  \/ (status r = "WARNING" /\ issues r <> []).
Proof.
  intros H. pose proof H as H0.
  unfold ValidateCoordinates.validate_destination in H. cbv zeta in H.
  apply bind_Ok in H as (name & Hn%getitem_Ok & H).
  apply bind_Ok in H as (vlat & Hlat%getitem_Ok & H).
  apply bind_Ok in H as (olat & Hflat & H).
  apply bind_Ok in H as (vlng & Hlng%getitem_Ok & H).
  apply bind_Ok in H as (olng & Hflng & H).
  destruct olat as [lat|], olng as [lng|];
    try (left; injection H as <-; reflexivity).
  apply bind_Ok in H as (n & Hname & _).
  destruct name as [|s|]; try discriminate. injection Hname as ->.
  destruct (validate_destination_coords dest n vlat vlng lat lng
              Hn Hlat Hlng Hflat Hflng) as [suggestions Hr].
  cbv zeta in Hr. rewrite Hr in H0. injection H0 as <-. right.
  cbn [status issues]. apply status_of_cases.
Qed.

Lemma validate_destination_statuses dest r :
  validate_destination dest = Ok r ->
  status r = "OK" \/ status r = "WARNING" \/ status r = "MISSING".
Proof.
  intros H. destruct (validate_destination_cases dest r H)
    as [-> | [[-> _] | [-> _]]]; auto.
Qed.

(** The invariant of the loop of [main]: the three counters stay present,
    and each destination adds one to their sum. *)
Lemma main_loop_counts destinations :
  forall (stats : gmap string nat) (a b c : nat),
    stats !! "OK" = Some a ->
    stats !! "WARNING" = Some b ->
    stats !! "MISSING" = Some c ->
    Forall (fun dest => returns (validate_destination dest)) destinations ->
    exists stats' a' b' c',
      main_loop destinations stats = Ok stats'
      /\ stats' !! "OK" = Some a'
      /\ stats' !! "WARNING" = Some b'
      /\ stats' !! "MISSING" = Some c'
      /\ (a' + b' + c' = a + b + c + List.length destinations)%nat.
Proof.
  induction destinations as [|dest rest IH]; intros stats a b c Ha Hb Hc Hall.
  - exists stats, a, b, c. cbn. repeat split; auto; lia.
  - apply Forall_cons in Hall as [[r Hr] Hrest].
    cbn [ValidateCoordinates.main_loop].
    assert (Hname : exists name, getitem dest "name" = Ok name).
    { pose proof Hr as H.
      unfold ValidateCoordinates.validate_destination in H.
      apply bind_Ok in H as (name & Hn & _). eauto. }
    destruct Hname as [name Hname].
    rewrite (bind_Ok_l _ _ _ Hname), (bind_Ok_l _ _ _ Hr).
    destruct (validate_destination_statuses dest r Hr) as [Hs | [Hs | Hs]];
      rewrite Hs.
    + rewrite (bind_Ok_l _ _ _ (getitem_Some _ _ _ Ha)).
      destruct (IH (<["OK" := (a + 1)%nat]> stats) (a + 1)%nat b c)
        as (stats' & a' & b' & c' & Hm & Ha' & Hb' & Hc' & Hsum); auto.
      * apply lookup_insert_eq.
      * rewrite lookup_insert_ne; [exact Hb | discriminate].
      * rewrite lookup_insert_ne; [exact Hc | discriminate].
      * exists stats', a', b', c'. repeat split; auto; cbn; lia.
    + rewrite (bind_Ok_l _ _ _ (getitem_Some _ _ _ Hb)).
      destruct (IH (<["WARNING" := (b + 1)%nat]> stats) a (b + 1)%nat c)
        as (stats' & a' & b' & c' & Hm & Ha' & Hb' & Hc' & Hsum); auto.
      * rewrite lookup_insert_ne; [exact Ha | discriminate].
      * apply lookup_insert_eq.
      * rewrite lookup_insert_ne; [exact Hc | discriminate].
      * exists stats', a', b', c'. repeat split; auto; cbn; lia.
    + rewrite (bind_Ok_l _ _ _ (getitem_Some _ _ _ Hc)).
      destruct (IH (<["MISSING" := (c + 1)%nat]> stats) a b (c + 1)%nat)
        as (stats' & a' & b' & c' & Hm & Ha' & Hb' & Hc' & Hsum); auto.
      * rewrite lookup_insert_ne; [exact Ha | discriminate].
      * rewrite lookup_insert_ne; [exact Hb | discriminate].
      * apply lookup_insert_eq.
      * exists stats', a', b', c'. repeat split; auto; cbn; lia.
Qed.

(** C9: when [validate_destination] returns for each destination of the
    list, each result has one of the statuses OK, WARNING and MISSING, and
    the loop of [main] ends with the three counters, whose sum is the
    number of destinations. *)
Theorem main_counts_cover (destinations : list (gmap string pyval)) :
  Forall (fun dest => returns (validate_destination dest)) destinations ->
  Forall (fun dest => exists r,
            validate_destination dest = Ok r
            /\ (status r = "OK" \/ status r = "WARNING" \/ status r = "MISSING"))
    destinations
  /\ exists stats ok warning missing_count,
       main_loop destinations initial_stats = Ok stats
       /\ stats !! "OK" = Some ok
       /\ stats !! "WARNING" = Some warning
       /\ stats !! "MISSING" = Some missing_count
       /\ (ok + warning + missing_count = List.length destinations)%nat.
Proof.
  intros Hall. split.
  - eapply Forall_impl; [exact Hall|]. cbn. intros dest [r Hr].
    exists r. split; [exact Hr | apply (validate_destination_statuses dest r Hr)].
  - destruct (main_loop_counts destinations initial_stats 0 0 0)%nat
      as (stats' & a' & b' & c' & Hm & Ha' & Hb' & Hc' & Hsum);
      try reflexivity; [exact Hall|].
    exists stats', a', b', c'. repeat split; auto.
Qed.

End Orchestrator.

(** ** Examples *)

Section ExampleFacts.
Local Open Scope string_scope.
Import ValidateCoordinates.

Lemma float_if_set_decimal s negative n k :
  decimal_parts s = Some (negative, n, k) ->
  float_if_set decimal_float (PStr s)
  = Ok (Some ((if negative then -1 else 1) * IZR (Z.of_N n) / 10 ^ k)%R).
Proof.
  intros H. assert (Hs : s <> "") by (intros ->; discriminate).
  unfold float_if_set, py_float, float_of_str, decimal_float, truthy.
  rewrite H. destruct (String.eqb_spec s ""); [contradiction | reflexivity].
Qed.

Ltac read_decimal negative n k :=
  match goal with
  | |- float_if_set decimal_float (PStr ?s) = _ =>
      rewrite (float_if_set_decimal s negative n k) by (vm_compute; reflexivity);
      do 2 f_equal; cbn; lra
  end.

Lemma read_41_25 : float_if_set decimal_float (PStr "41.25") = Ok (Some 41.25%R).
Proof. read_decimal false 4125%N 2%nat. Qed.

Lemma read_41_30 : float_if_set decimal_float (PStr "41.30") = Ok (Some 41.30%R).
Proof. read_decimal false 4130%N 2%nat. Qed.

Lemma read_41_43 : float_if_set decimal_float (PStr "41.43") = Ok (Some 41.43%R).
Proof. read_decimal false 4143%N 2%nat. Qed.

Lemma read_m81_40 :
  float_if_set decimal_float (PStr "-81.40") = Ok (Some (-81.40)%R).
Proof. read_decimal true 8140%N 2%nat. Qed.

Lemma read_m81_55 :
  float_if_set decimal_float (PStr "-81.55") = Ok (Some (-81.55)%R).
Proof. read_decimal true 8155%N 2%nat. Qed.

Lemma within_bounds_41_25 : is_within_bounds 41.25 (-81.55) = true.
Proof.
  unfold is_within_bounds, CVNP_BOUNDS. cbn [min_lat max_lat min_lng max_lng].
  rewrite !bool_decide_eq_true_2; [reflexivity | lra | lra].
Qed.

Lemma outside_bounds_41_43 : is_within_bounds 41.43 (-81.55) = false.
Proof.
  unfold is_within_bounds, CVNP_BOUNDS. cbn [min_lat max_lat min_lng max_lng].
  rewrite (bool_decide_eq_false_2 (_ <= 41.43 <= _)%R); [reflexivity | lra].
Qed.


(** A line with five fields passes the test on the length, and is then
    dropped when the sixth field is read. *)
Lemma usgs_lines_short_line lat lng :
  usgs_lines decimal_float lat lng [short_line] [] = Ok [].
Proof. reflexivity. Qed.


Lemma hale_farm_missing :
  validate_destination decimal_float no_usgs_reply no_display_name hale_farm
  = Ok missing.
Proof.
  apply (validate_destination_read decimal_float no_usgs_reply no_display_name
           hale_farm (PStr "Hale Farm") (PStr "") (PStr "-81.55")
           None (Some (-81.55)%R)); auto using read_m81_55.
Qed.

Lemma stanford_house_warning :
  validate_destination decimal_float no_usgs_reply no_display_name stanford_house
  = Ok (mk_validation "WARNING" [OutsideBounds] []).
Proof.
  rewrite (validate_destination_plain decimal_float no_usgs_reply no_display_name
             stanford_house "Stanford House" (PStr "41.43") (PStr "-81.55")
             41.43 (-81.55));
    auto using read_41_43, read_m81_55.
  unfold region_issues. rewrite outside_bounds_41_43. reflexivity.
Qed.

Lemma boston_store_ok :
  validate_destination decimal_float no_usgs_reply no_display_name boston_store
  = Ok (mk_validation "OK" [] []).
Proof.
  rewrite (validate_destination_plain decimal_float no_usgs_reply no_display_name
             boston_store "Boston Store" (PStr "41.25") (PStr "-81.55")
             41.25 (-81.55));
    auto using read_41_25, read_m81_55.
  unfold region_issues. rewrite within_bounds_41_25. reflexivity.
Qed.

(** A list of three destinations, one without coordinates, one north of
    the bounds and one within them, gives one count for each status. *)
Lemma main_loop_three_destinations :
  exists stats,
    main_loop decimal_float no_usgs_reply no_display_name
      [hale_farm; stanford_house; boston_store] initial_stats = Ok stats
    /\ stats !! "OK" = Some 1%nat
    /\ stats !! "WARNING" = Some 1%nat
    /\ stats !! "MISSING" = Some 1%nat.
Proof.
  cbn [main_loop].
  rewrite (bind_Ok_l _ _ (PStr "Hale Farm") eq_refl).
  rewrite (bind_Ok_l _ _ _ hale_farm_missing).
  rewrite (bind_Ok_l _ _ 0%nat eq_refl).
  rewrite (bind_Ok_l _ _ (PStr "Stanford House") eq_refl).
  rewrite (bind_Ok_l _ _ _ stanford_house_warning).
  rewrite (bind_Ok_l _ _ 0%nat eq_refl).
  rewrite (bind_Ok_l _ _ (PStr "Boston Store") eq_refl).
  rewrite (bind_Ok_l _ _ _ boston_store_ok).
  rewrite (bind_Ok_l _ _ 0%nat eq_refl).
  eexists. split; [reflexivity|]. repeat split; reflexivity.
Qed.

End ExampleFacts.

(** ** The theorems at the example destinations *)

Section Instances.
Local Open Scope string_scope.
Import ValidateCoordinates.





Lemma validate_destination_status_witness :
  boston_store !! "name" = Some (PStr "Boston Store")
  /\ boston_store !! "latitude" = Some (PStr "41.25")
  /\ boston_store !! "longitude" = Some (PStr "-81.55")
  /\ float_if_set decimal_float (PStr "41.25") = Ok (Some 41.25%R)
  /\ float_if_set decimal_float (PStr "-81.55") = Ok (Some (-81.55)%R)
  /\ exists r,
       validate_destination decimal_float no_usgs_reply summit_display_name
         boston_store = Ok r
       /\ status r = "OK" /\ issues r = [].
Proof.
  assert (Hn : boston_store !! "name" = Some (PStr "Boston Store"))
    by reflexivity.
  assert (Hlat : boston_store !! "latitude" = Some (PStr "41.25"))
    by reflexivity.
  assert (Hlng : boston_store !! "longitude" = Some (PStr "-81.55"))
    by reflexivity.
  pose proof read_41_25 as Hflat. pose proof read_m81_55 as Hflng.
  repeat (split; [assumption|]).
  destruct (validate_destination_status decimal_float no_usgs_reply
              summit_display_name boston_store _ _ _ _ _
              Hn Hlat Hlng Hflat Hflng)
    as (r & Heq & _ & _ & Hok).
  exists r. split; [exact Heq|].
  apply Hok.
  - exact within_bounds_41_25.
  - reflexivity.
  - right. left.
    exists "Boston Store, Boston Mills Road, ", " County, Ohio". reflexivity.
Defined.

Lemma main_counts_cover_witness :
  let destinations := [hale_farm; stanford_house; boston_store] in
  Forall (fun dest =>
            returns (validate_destination decimal_float no_usgs_reply
                       no_display_name dest)) destinations
  /\ exists stats ok warning missing_count,
       main_loop decimal_float no_usgs_reply no_display_name destinations
         initial_stats = Ok stats
       /\ stats !! "OK" = Some ok
       /\ stats !! "WARNING" = Some warning
       /\ stats !! "MISSING" = Some missing_count
       /\ (ok + warning + missing_count = 3)%nat.
Proof.
  cbv zeta.
  assert (Hall : Forall (fun dest =>
                   returns (validate_destination decimal_float no_usgs_reply
                              no_display_name dest))
                   [hale_farm; stanford_house; boston_store]).
  { repeat constructor.
    - eexists. exact hale_farm_missing.
    - eexists. exact stanford_house_warning.
    - eexists. exact boston_store_ok. }
  split; [exact Hall|].
  exact (proj2 (main_counts_cover decimal_float no_usgs_reply no_display_name
                  [hale_farm; stanford_house; boston_store] Hall)).
Defined.

End Instances.

(** ** Range and exact values of the distance *)

Section HaversineValues.
Local Open Scope R_scope.




(** X2: the distance from a point to itself is 0. *)
Theorem haversine_distance_self (lat lon : R) :
  haversine_distance lat lon lat lon = Ok 0.
Proof.
  rewrite haversine_distance_eq. f_equal. unfold haversine_m. cbv zeta.
  assert (Ha : haversine_a lat lon lat lon = 0).
  { unfold haversine_a, PyMath.radians. cbv zeta.
    replace ((lat - lat) * (PI / 180) / 2) with 0 by lra.
    replace ((lon - lon) * (PI / 180) / 2) with 0 by lra.
    rewrite sin_0. ring. }
  rewrite Ha, Rminus_0_r, sqrt_0, sqrt_1.
  unfold PyMath.atan2. destruct (Rlt_dec 0 1); [|lra].
  replace (0 / 1) with 0 by lra. rewrite atan_0. ring.
Qed.




End HaversineValues.

(** ** The two classifiers compared *)

Section Classifiers.
Local Open Scope string_scope.

Lemma str_append_cons (x : ascii) (a b : string) :
  String x a +:+ b = String x (a +:+ b).
Proof. reflexivity. Qed.

Lemma str_append_assoc (a b c : string) : (a +:+ b) +:+ c = a +:+ (b +:+ c).
Proof.
  induction a as [|x a IH]; [reflexivity|].
  rewrite !str_append_cons, IH. reflexivity.
Qed.

Lemma lower_append (a b : string) : lower (a +:+ b) = lower a +:+ lower b.
Proof.
  induction a as [|x a IH]; [reflexivity|].
  rewrite str_append_cons. cbn [lower]. rewrite str_append_cons, IH.
  reflexivity.
Qed.

Lemma substring_of_extend k s pre post :
  substring_of k s -> substring_of k (pre +:+ s +:+ post).
Proof.
  intros (a & b & ->). exists (pre +:+ a), (b +:+ post).
  rewrite !str_append_assoc. reflexivity.
Qed.

Lemma any_keyword_in_extend keywords name pre post :
  any_keyword_in keywords (lower name) = true ->
  any_keyword_in keywords (lower (pre +:+ name +:+ post)) = true.
Proof.
  rewrite !any_keyword_in_spec. intros (k & Hin & Hk). exists k.
  split; [exact Hin|]. rewrite !lower_append.
  apply substring_of_extend. exact Hk.
Qed.

(** X5: the classifier of [validate_water_features.py] accepts a name
    exactly when the classifier of [validate_coordinates.py] accepts it or
    the lowered name contains "gorge"; so the two answer alike on every
    name without "gorge", and the second never accepts a name that the
    first rejects. *)
Theorem is_water_feature_compare (name : string) :
  ValidateWaterFeatures.is_water_feature name
  = ValidateCoordinates.is_water_feature name || str_in "gorge" (lower name).
Proof.
  unfold ValidateWaterFeatures.is_water_feature,
    ValidateCoordinates.is_water_feature, any_keyword_in. cbv zeta.
  change ValidateWaterFeatures.WATER_KEYWORDS
    with (ValidateCoordinates.WATER_KEYWORDS ++ ["gorge"])%list.
  rewrite existsb_app. cbn [existsb]. rewrite orb_false_r. reflexivity.
Qed.

(** X6: the classifiers test for a run of characters, without regard to
    words: a name that is accepted stays accepted with any text put before
    and after it. *)
Theorem is_water_feature_extend (name pre post : string) :
  ValidateCoordinates.is_water_feature name = true ->
  ValidateCoordinates.is_water_feature (pre +:+ name +:+ post) = true
  /\ ValidateWaterFeatures.is_water_feature (pre +:+ name +:+ post) = true.
Proof.
  intros H.
  assert (H' : ValidateCoordinates.is_water_feature (pre +:+ name +:+ post)
               = true)
    by (apply any_keyword_in_extend; exact H).
  split; [exact H'|].
  unfold ValidateWaterFeatures.is_water_feature, any_keyword_in. cbv zeta.
  change ValidateWaterFeatures.WATER_KEYWORDS
    with (ValidateCoordinates.WATER_KEYWORDS ++ ["gorge"])%list.
  rewrite existsb_app. apply orb_true_iff. left. exact H'.
Qed.

End Classifiers.

(** ** Reading the answer of the USGS service *)

Section UsgsParsing.
Local Open Scope string_scope.

Variable str_to_float : string -> option R.

Local Abbreviation read_from := (read_from str_to_float).

Lemma bind_Raise {A B : Type} (m : result A) (k : A -> result B) (e : exn) :
  m ≫= k = Raise e -> m = Raise e \/ exists a, m = Ok a /\ k a = Raise e.
Proof. destruct m as [a|e']; cbn; [eauto | intros [= ->]; auto]. Qed.

Lemma index_Ok {A : Type} (l : list A) i x : index l i = Ok x -> l !! i = Some x.
Proof. unfold index. destruct (l !! i); congruence. Qed.

Lemma index_Raise {A : Type} (l : list A) i e :
  index l i = Raise e -> e = IndexError.
Proof. unfold index. destruct (l !! i); congruence. Qed.

Lemma float_of_str_Ok s r :
  float_of_str str_to_float s = Ok r -> str_to_float s = Some r.
Proof. unfold float_of_str. destruct (str_to_float s); congruence. Qed.

Lemma float_of_str_Raise s e :
  float_of_str str_to_float s = Raise e -> e = ValueError.
Proof. unfold float_of_str. destruct (str_to_float s); congruence. Qed.

Lemma coordinates_usgs_line_Ok lat lng parts site :
  ValidateCoordinates.usgs_line str_to_float lat lng parts = Ok site ->
  read_from parts (ValidateCoordinates.name site)
    (ValidateCoordinates.lat site) (ValidateCoordinates.lng site).
Proof.
  unfold ValidateCoordinates.usgs_line. intros H.
  apply bind_Ok in H as (p4 & Hp4%index_Ok & H).
  apply bind_Ok in H as (la & Hla%float_of_str_Ok & H).
  apply bind_Ok in H as (p5 & Hp5%index_Ok & H).
  apply bind_Ok in H as (lo & Hlo%float_of_str_Ok & H).
  apply bind_Ok in H as (n & Hn & H).
  apply bind_Ok in H as (d & _ & H).
  injection H as <-. cbn.
  pose proof (lookup_lt_Some _ _ _ Hp5) as Hlen.
  destruct (Nat.ltb_spec 2 (List.length parts)) as [_|Hge]; [|lia].
  apply index_Ok in Hn. split; [exact Hn|]. eauto 10.
Qed.

Lemma coordinates_usgs_line_Raise lat lng parts e :
  ValidateCoordinates.usgs_line str_to_float lat lng parts = Raise e ->
  e = ValueError \/ e = IndexError.
Proof.
  unfold ValidateCoordinates.usgs_line. intros H.
  apply bind_Raise in H as [H%index_Raise | (p4 & _ & H)]; [auto|].
  apply bind_Raise in H as [H%float_of_str_Raise | (la & _ & H)]; [auto|].
  apply bind_Raise in H as [H%index_Raise | (p5 & _ & H)]; [auto|].
  apply bind_Raise in H as [H%float_of_str_Raise | (lo & _ & H)]; [auto|].
  apply bind_Raise in H as [H | (n & _ & H)].
  - destruct (2 <? List.length parts)%nat; [|discriminate].
    apply index_Raise in H. auto.
  - rewrite haversine_distance_eq in H. discriminate.
Qed.

(** The loop never stops on an exception: it returns the sites that it
    had, followed by at most one site for each line that starts with
    "USGS", each read from the fields of one of these lines. *)
Lemma coordinates_usgs_lines_returns lat lng lines :
  forall sites, exists more,
    ValidateCoordinates.usgs_lines str_to_float lat lng lines sites
    = Ok (sites ++ more)%list
    /\ (List.length more
        <= List.length (List.filter (startswith "USGS") lines))%nat
    /\ Forall (fun site => exists line,
                 line ∈ lines /\ startswith "USGS" line = true
                 /\ read_from (split "009" line)
                      (ValidateCoordinates.name site)
                      (ValidateCoordinates.lat site)
                      (ValidateCoordinates.lng site)) more.
Proof.
  induction lines as [|line rest IH]; intros sites.
  - exists []. cbn. rewrite app_nil_r. repeat split; [lia | constructor].
  - cbn [ValidateCoordinates.usgs_lines List.filter].
    assert (Hkeep : forall sites',
      (exists more, ValidateCoordinates.usgs_lines str_to_float lat lng rest sites'
                    = Ok (sites' ++ more)%list
         /\ (List.length more
             <= List.length (List.filter (startswith "USGS") rest))%nat
         /\ Forall (fun site => exists line0,
                      line0 ∈ line :: rest /\ startswith "USGS" line0 = true
                      /\ read_from (split "009" line0)
                           (ValidateCoordinates.name site)
                           (ValidateCoordinates.lat site)
                           (ValidateCoordinates.lng site)) more)).
    { intros sites'. destruct (IH sites') as (more & Heq & Hlen & Hall).
      exists more. repeat split; auto.
      eapply Forall_impl; [exact Hall|]. cbn.
      intros site (l0 & Hin & Hrest). exists l0. split; [|exact Hrest].
      apply elem_of_cons. right. exact Hin. }
    destruct (startswith "USGS" line) eqn:Hstart.
    + assert (Hskip : exists more,
        ValidateCoordinates.usgs_lines str_to_float lat lng rest sites
        = Ok (sites ++ more)%list
        /\ (List.length more
            <= List.length (line :: List.filter (startswith "USGS") rest))%nat
        /\ Forall (fun site => exists line0,
                     line0 ∈ line :: rest /\ startswith "USGS" line0 = true
                     /\ read_from (split "009" line0)
                          (ValidateCoordinates.name site)
                          (ValidateCoordinates.lat site)
                          (ValidateCoordinates.lng site)) more).
      { destruct (Hkeep sites) as (more & Heq & Hlen & Hall).
        exists more. repeat split; auto. cbn [List.length]. lia. }
      destruct (5 <=? List.length (split "009" line))%nat; [|exact Hskip].
      destruct (ValidateCoordinates.usgs_line str_to_float lat lng
                  (split "009" line)) as [site|e] eqn:Hline.
      * destruct (Hkeep (sites ++ [site])%list) as (more & Heq & Hlen & Hall).
        exists (site :: more). rewrite Heq, <- app_assoc. cbn [app List.length].
        repeat split; [lia|]. constructor; [|exact Hall].
        exists line. split; [apply elem_of_cons; left; reflexivity|].
        split; [exact Hstart|].
        apply (coordinates_usgs_line_Ok lat lng). exact Hline.
      * destruct (coordinates_usgs_line_Raise _ _ _ _ Hline) as [-> | ->];
          exact Hskip.
    + exact (Hkeep sites).
Qed.

(** X7: however the text of the answer reads, the parsing inside
    [get_nearby_usgs_sites] comes to an end without an exception, so the
    sites of the good lines are never lost to a bad line: the list returned
    is a reordering of the sites read, with at most one site for each line
    that starts with "USGS". *)
Theorem get_nearby_usgs_sites_count
  (usgs_reply : R -> R -> option string) (lat lng : R) :
  match usgs_reply lat lng with
  | None =>
      ValidateCoordinates.get_nearby_usgs_sites str_to_float usgs_reply lat lng
      = []
  | Some data =>
      exists sites,
        ValidateCoordinates.usgs_lines str_to_float lat lng (split "010" data) []
        = Ok sites
        /\ Permutation sites
             (ValidateCoordinates.get_nearby_usgs_sites str_to_float usgs_reply
                lat lng)
        /\ (List.length
              (ValidateCoordinates.get_nearby_usgs_sites str_to_float
                 usgs_reply lat lng)
            <= List.length
                 (List.filter (startswith "USGS") (split "010" data)))%nat
  end.
Proof.
  unfold ValidateCoordinates.get_nearby_usgs_sites.
  destruct (usgs_reply lat lng) as [data|]; [|reflexivity].
  destruct (coordinates_usgs_lines_returns lat lng (split "010" data) [])
    as (more & Heq & Hlen & _).
  cbn [app] in Heq. rewrite Heq. exists more.
  split; [reflexivity|]. split; [apply sorted_perm|].
  rewrite <- (Permutation_length (sorted_perm ValidateCoordinates.distance_m more)).
  exact Hlen.
Qed.

Lemma get_nearby_usgs_sites_fields_aux
  (usgs_reply : R -> R -> option string) (lat lng : R) :
  Forall (fun site => exists data line,
            usgs_reply lat lng = Some data
            /\ line ∈ split "010" data
            /\ startswith "USGS" line = true
            /\ read_from (split "009" line)
                 (ValidateCoordinates.name site)
                 (ValidateCoordinates.lat site)
                 (ValidateCoordinates.lng site))
    (ValidateCoordinates.get_nearby_usgs_sites str_to_float usgs_reply lat lng).
Proof.
  unfold ValidateCoordinates.get_nearby_usgs_sites.
  destruct (usgs_reply lat lng) as [data|]; [|constructor].
  destruct (coordinates_usgs_lines_returns lat lng (split "010" data) [])
    as (more & Heq & _ & Hall).
  cbn [app] in Heq. rewrite Heq.
  rewrite Forall_forall in *. intros site Hin.
  rewrite <- (sorted_perm ValidateCoordinates.distance_m more) in Hin.
  destruct (Hall site Hin) as (line & Hline & Hstart & Hread).
  exists data, line. auto.
Qed.

(** X8: every site returned was read from a line of the answer that
    starts with "USGS": its name is the third field of the line and its
    coordinates are the fifth and the sixth field as [float] reads them.
    The name "Unknown" of the source is never used, since a line with a
    sixth field has a third one. *)
Theorem get_nearby_usgs_sites_fields
  (usgs_reply : R -> R -> option string) (lat lng : R) :
  Forall (fun site => exists data line,
            usgs_reply lat lng = Some data
            /\ line ∈ split "010" data
            /\ startswith "USGS" line = true
            /\ read_from (split "009" line)
                 (ValidateCoordinates.name site)
                 (ValidateCoordinates.lat site)
                 (ValidateCoordinates.lng site))
    (ValidateCoordinates.get_nearby_usgs_sites str_to_float usgs_reply lat lng).
Proof. apply get_nearby_usgs_sites_fields_aux. Qed.

(** X9: a line with fewer than six fields gives no site; the test of the
    source lets lines with five fields through, and these are then dropped
    when the sixth field is read.  So an answer whose lines all have fewer
    than six fields gives the empty list. *)
Theorem get_nearby_usgs_sites_short_lines
  (usgs_reply : R -> R -> option string) (lat lng : R) (data : string) :
  usgs_reply lat lng = Some data ->
  Forall (fun line => (List.length (split "009" line) < 6)%nat)
    (split "010" data) ->
  ValidateCoordinates.get_nearby_usgs_sites str_to_float usgs_reply lat lng = [].
Proof.
  intros Hreply Hshort.
  pose proof (get_nearby_usgs_sites_fields_aux usgs_reply lat lng) as Hall.
  destruct (ValidateCoordinates.get_nearby_usgs_sites str_to_float usgs_reply
              lat lng) as [|site rest]; [reflexivity|].
  apply Forall_cons in Hall as [(data' & line & Hd & Hin & _ & _ & Hparts) _].
  rewrite Hreply in Hd. injection Hd as <-.
  rewrite Forall_forall in Hshort. specialize (Hshort line Hin).
  destruct Hparts as (p4 & p5 & _ & _ & Hp5 & _).
  apply lookup_lt_Some in Hp5. lia.
Qed.

(** The same place in a site of [validate_coordinates.py] and in a site of
    [validate_water_features.py]. *)
Local Abbreviation same_place :=
  (fun (c : ValidateCoordinates.usgs_site)
       (w : ValidateWaterFeatures.usgs_site) =>
     ValidateCoordinates.name c = ValidateWaterFeatures.site_name w
     /\ ValidateCoordinates.lat c = ValidateWaterFeatures.site_lat w
     /\ ValidateCoordinates.lng c = ValidateWaterFeatures.site_lng w).




End UsgsParsing.

(** ** More on the orchestrator of [validate_coordinates.py] *)

Section OrchestratorResults.
Local Open Scope string_scope.
Import ValidateCoordinates.

Variable str_to_float : string -> option R.
Variable usgs_reply : R -> R -> option string.
Variable nominatim_display_name : R -> R -> option string.

Local Abbreviation validate_destination :=
  (ValidateCoordinates.validate_destination
     str_to_float usgs_reply nominatim_display_name).
Local Abbreviation get_nearby_usgs_sites :=
  (ValidateCoordinates.get_nearby_usgs_sites str_to_float usgs_reply).
Local Abbreviation reverse_geocode :=
  (ValidateCoordinates.reverse_geocode nominatim_display_name).
Local Abbreviation readable := (ValidateCoordinates.readable str_to_float).
Local Abbreviation water_issues :=
  (ValidateCoordinates.water_issues str_to_float usgs_reply).
Local Abbreviation geocode_issues :=
  (ValidateCoordinates.geocode_issues nominatim_display_name).
Local Abbreviation water_suggestions :=
  (ValidateCoordinates.water_suggestions str_to_float usgs_reply).
Local Abbreviation geocode_suggestions :=
  (ValidateCoordinates.geocode_suggestions nominatim_display_name).

Lemma bind_Raise_l {A B : Type} (m : result A) (k : A -> result B) (e : exn) :
  m = Raise e -> m ≫= k = Raise e.
Proof. intros ->. reflexivity. Qed.

Lemma getitem_None {V : Type} (d : gmap string V) key :
  d !! key = None -> getitem d key = Raise KeyError.
Proof. unfold getitem. intros ->. reflexivity. Qed.

Lemma float_if_set_Raise v e :
  float_if_set str_to_float v = Raise e -> e = ValueError.
Proof.
  unfold float_if_set. destruct (truthy v) eqn:Ht; [|discriminate].
  destruct v as [|s|r]; cbn.
  - discriminate.
  - unfold float_of_str. destruct (str_to_float s); cbn; congruence.
  - discriminate.
Qed.

(** The result in full for a destination with a name that is text and with
    both coordinates. *)
Lemma validate_destination_full dest n vlat vlng lat lng :
  dest !! "name" = Some (PStr n) ->
  dest !! "latitude" = Some vlat ->
  dest !! "longitude" = Some vlng ->
  float_if_set str_to_float vlat = Ok (Some lat) ->
  float_if_set str_to_float vlng = Ok (Some lng) ->
  let issues :=
    (region_issues lat lng ++ water_issues n lat lng ++ geocode_issues lat lng)%list in
  validate_destination dest
  = Ok (mk_validation (status_of issues) issues
          (water_suggestions n lat lng ++ geocode_suggestions lat lng)%list).
Proof.
  intros Hn Hlat Hlng Hflat Hflng.
  unfold ValidateCoordinates.validate_destination. cbv zeta.
  rewrite (bind_Ok_l _ _ _ (getitem_Some _ _ _ Hn)).
  rewrite (bind_Ok_l _ _ _ (getitem_Some _ _ _ Hlat)).
  rewrite (bind_Ok_l _ _ _ Hflat).
  rewrite (bind_Ok_l _ _ _ (getitem_Some _ _ _ Hlng)).
  rewrite (bind_Ok_l _ _ _ Hflng).
  rewrite (bind_Ok_l _ _ n eq_refl).
  unfold region_issues, ValidateCoordinates.water_issues,
    ValidateCoordinates.geocode_issues, ValidateCoordinates.water_suggestions,
    ValidateCoordinates.geocode_suggestions. cbv zeta.
  destruct (is_within_bounds lat lng);
    destruct (is_water_feature n);
    try destruct (get_nearby_usgs_sites lat lng) as [|nearest others];
    try destruct (bool_decide (distance_m nearest > 500)%R);
    destruct (String.eqb (reverse_geocode lat lng) "");
    destruct (str_in "Summit" (reverse_geocode lat lng));
    destruct (str_in "Cuyahoga" (reverse_geocode lat lng));
    reflexivity.
Qed.

(** Every result is the MISSING result or the result in full of some name
    and coordinates. *)
Lemma validate_destination_inv dest r :
  validate_destination dest = Ok r ->
  r = missing
  \/ exists n lat lng,
       dest !! "name" = Some (PStr n)
       /\ r = mk_validation
                (status_of (region_issues lat lng ++ water_issues n lat lng
                            ++ geocode_issues lat lng)%list)
                (region_issues lat lng ++ water_issues n lat lng
                 ++ geocode_issues lat lng)%list
                (water_suggestions n lat lng ++ geocode_suggestions lat lng)%list.
Proof.
  intros H. pose proof H as H0.
  unfold ValidateCoordinates.validate_destination in H. cbv zeta in H.
  apply bind_Ok in H as (name & Hn%getitem_Ok & H).
  apply bind_Ok in H as (vlat & Hlat%getitem_Ok & H).
  apply bind_Ok in H as (olat & Hflat & H).
  apply bind_Ok in H as (vlng & Hlng%getitem_Ok & H).
  apply bind_Ok in H as (olng & Hflng & H).
  destruct olat as [lat|], olng as [lng|];
    try (left; injection H as <-; reflexivity).
  apply bind_Ok in H as (n & Hname & _).
  destruct name as [|s|]; try discriminate. injection Hname as ->.
  pose proof (validate_destination_full dest n vlat vlng lat lng
                Hn Hlat Hlng Hflat Hflng) as Hr.
  cbv zeta in Hr. rewrite Hr in H0. injection H0 as <-.
  right. exists n, lat, lng. split; [exact Hn | reflexivity].
Qed.

Lemma region_issues_length lat lng : (List.length (region_issues lat lng) <= 1)%nat.
Proof. unfold region_issues. destruct (is_within_bounds lat lng); cbn; lia. Qed.

Lemma water_issues_length n lat lng :
  (List.length (water_issues n lat lng) <= 1)%nat.
Proof.
  unfold ValidateCoordinates.water_issues.
  destruct (is_water_feature n); [|cbn; lia].
  destruct (get_nearby_usgs_sites lat lng) as [|nearest others]; [cbn; lia|].
  destruct (bool_decide (distance_m nearest > 500)%R); cbn; lia.
Qed.

Lemma geocode_issues_length lat lng :
  (List.length (geocode_issues lat lng) <= 1)%nat.
Proof.
  unfold ValidateCoordinates.geocode_issues. cbv zeta.
  destruct (negb (String.eqb (reverse_geocode lat lng) "")
            && (negb (str_in "Summit" (reverse_geocode lat lng))
                && negb (str_in "Cuyahoga" (reverse_geocode lat lng))));
    cbn; lia.
Qed.

Lemma water_suggestions_length n lat lng :
  (List.length (water_suggestions n lat lng) <= 1)%nat.
Proof.
  unfold ValidateCoordinates.water_suggestions.
  destruct (is_water_feature n); [|cbn; lia].
  destruct (get_nearby_usgs_sites lat lng) as [|nearest others]; [cbn; lia|].
  destruct (bool_decide (distance_m nearest > 500)%R); cbn; lia.
Qed.

Lemma geocode_suggestions_length lat lng :
  (List.length (geocode_suggestions lat lng) <= 1)%nat.
Proof.
  unfold ValidateCoordinates.geocode_suggestions. cbv zeta.
  destruct (negb (String.eqb (reverse_geocode lat lng) "")); cbn; lia.
Qed.

(** X11: a record that lacks one of the fields [name], [latitude] and
    [longitude] gives no result: [validate_destination] raises [KeyError],
    or [ValueError] when the latitude is text that is not a number and the
    longitude is the field that lacks. *)
Theorem validate_destination_lacking_field (dest : gmap string pyval) :
  dest !! "name" = None \/ dest !! "latitude" = None
  \/ dest !! "longitude" = None ->
  validate_destination dest = Raise KeyError
  \/ (validate_destination dest = Raise ValueError
      /\ dest !! "longitude" = None
      /\ exists s, dest !! "latitude" = Some (PStr s) /\ str_to_float s = None).
Proof.
  intros Hlack. unfold ValidateCoordinates.validate_destination. cbv zeta.
  destruct (dest !! "name") as [name|] eqn:Hn;
    [|left; rewrite (bind_Raise_l _ _ _ (getitem_None _ _ Hn)); reflexivity].
  rewrite (bind_Ok_l _ _ _ (getitem_Some _ _ _ Hn)).
  destruct (dest !! "latitude") as [vlat|] eqn:Hlat;
    [|left; rewrite (bind_Raise_l _ _ _ (getitem_None _ _ Hlat)); reflexivity].
  rewrite (bind_Ok_l _ _ _ (getitem_Some _ _ _ Hlat)).
  destruct Hlack as [Hl | [Hl | Hlng]]; try discriminate.
  destruct (float_if_set str_to_float vlat) as [olat|e] eqn:Hflat.
  - left. rewrite (bind_Ok_l _ _ _ eq_refl).
    rewrite (bind_Raise_l _ _ _ (getitem_None _ _ Hlng)). reflexivity.
  - right. pose proof (float_if_set_Raise _ _ Hflat) as ->.
    split; [reflexivity|]. split; [exact Hlng|].
    unfold float_if_set in Hflat. destruct (truthy vlat); [|discriminate].
    destruct vlat as [|s|r]; try discriminate.
    exists s. split; [reflexivity|].
    cbn in Hflat. unfold float_of_str in Hflat.
    destruct (str_to_float s); [discriminate | reflexivity].
Qed.

(** X12: a coordinate given as the number 0 counts as no coordinate: when
    the latitude or the longitude is the number 0, and both fields can be
    read, the result is MISSING, so a point on the equator or on the prime
    meridian that is sent as a number is never checked. *)
Theorem validate_destination_zero (dest : gmap string pyval)
  (name vlat vlng : pyval) :
  dest !! "name" = Some name ->
  dest !! "latitude" = Some vlat ->
  dest !! "longitude" = Some vlng ->
  vlat = PNum 0 \/ vlng = PNum 0 ->
  readable vlat ->
  readable vlng ->
  validate_destination dest
  = Ok (mk_validation "MISSING" [NoCoordinates] []).
Proof.
  intros Hn Hlat Hlng Hzero Hrlat Hrlng.
  assert (Hz : float_if_set str_to_float (PNum 0) = Ok None).
  { unfold float_if_set, truthy.
    rewrite bool_decide_eq_true_2 by reflexivity. reflexivity. }
  destruct (float_if_set_readable str_to_float _ Hrlat) as [olat Holat].
  destruct (float_if_set_readable str_to_float _ Hrlng) as [olng Holng].
  apply (validate_destination_read str_to_float usgs_reply
           nominatim_display_name dest name vlat vlng olat olng); auto.
  destruct Hzero as [-> | ->]; [left | right]; congruence.
Qed.

(** X13: a destination with a name and coordinates outside the bounds of
    the park gets the status WARNING, and 'Outside CVNP bounds' is the
    first of its issues, whatever the other checks find. *)
Theorem validate_destination_outside (dest : gmap string pyval) (n : string)
  (vlat vlng : pyval) (lat lng : R) :
  dest !! "name" = Some (PStr n) ->
  dest !! "latitude" = Some vlat ->
  dest !! "longitude" = Some vlng ->
  float_if_set str_to_float vlat = Ok (Some lat) ->
  float_if_set str_to_float vlng = Ok (Some lng) ->
  is_within_bounds lat lng = false ->
  exists r others,
    validate_destination dest = Ok r
    /\ status r = "WARNING"
    /\ issues r = OutsideBounds :: others.
Proof.
  intros Hn Hlat Hlng Hflat Hflng Hout.
  pose proof (validate_destination_full dest n vlat vlng lat lng
                Hn Hlat Hlng Hflat Hflng) as Hr.
  cbv zeta in Hr. unfold region_issues in Hr. rewrite Hout in Hr.
  eexists. eexists. split; [exact Hr|]. split; reflexivity.
Qed.

(** X14: a result never holds more than three issues, one for each check,
    nor more than two suggestions. *)
Theorem validate_destination_sizes (dest : gmap string pyval) (r : validation) :
  validate_destination dest = Ok r ->
  (List.length (issues r) <= 3)%nat /\ (List.length (suggestions r) <= 2)%nat.
Proof.
  intros H. apply validate_destination_inv in H
    as [-> | (n & lat & lng & _ & ->)].
  - cbn. lia.
  - cbn [issues suggestions]. rewrite !length_app.
    pose proof (region_issues_length lat lng).
    pose proof (water_issues_length n lat lng).
    pose proof (geocode_issues_length lat lng).
    pose proof (water_suggestions_length n lat lng).
    pose proof (geocode_suggestions_length lat lng).
    lia.
Qed.



Lemma prefix_of_length n s : (String.length (prefix_of n s) <= n)%nat.
Proof.
  unfold prefix_of. revert s.
  induction n as [|n IH]; intros [|c s]; cbn; try lia.
  specialize (IH s). lia.
Qed.

Lemma str_append_length a b :
  String.length (a +:+ b) = (String.length a + String.length b)%nat.
Proof.
  induction a as [|c a IH]; [reflexivity|].
  rewrite str_append_cons. cbn [String.length]. rewrite IH. reflexivity.
Qed.

(** X16: the geocoded name in a suggestion is cut: the text shown after
    'Geocoded to: ' has at most 83 characters; it is the name that the
    geocoder gave for some point, which is not empty, or the first 80
    characters of that name and three dots. *)
Theorem validate_destination_geocoded (dest : gmap string pyval)
  (r : validation) (text : string) :
  validate_destination dest = Ok r ->
  In (GeocodedTo text) (suggestions r) ->
  (String.length text <= 83)%nat
  /\ exists lat lng,
       reverse_geocode lat lng <> ""
       /\ (text = reverse_geocode lat lng
           \/ text = prefix_of 80 (reverse_geocode lat lng) +:+ "...").
Proof.
  intros H Hin. apply validate_destination_inv in H
    as [-> | (n & lat & lng & _ & ->)]; [destruct Hin|].
  cbn [suggestions] in Hin. apply in_app_or in Hin as [Hin | Hin].
  - unfold ValidateCoordinates.water_suggestions in Hin.
    destruct (is_water_feature n); [|destruct Hin].
    destruct (get_nearby_usgs_sites lat lng) as [|nearest others];
      [destruct Hin|].
    destruct (bool_decide (distance_m nearest > 500)%R);
      destruct Hin as [Hin | []]; discriminate.
  - unfold ValidateCoordinates.geocode_suggestions in Hin. cbv zeta in Hin.
    destruct (String.eqb_spec (reverse_geocode lat lng) "") as [Heq|Hne];
      cbn [negb] in Hin; [destruct Hin|].
    destruct Hin as [Hin | []]. injection Hin as <-.
    destruct (Nat.ltb_spec 80 (String.length (reverse_geocode lat lng)))
      as [Hlong|Hshort].
    + split.
      * rewrite str_append_length.
        pose proof (prefix_of_length 80 (reverse_geocode lat lng)).
        cbn [String.length]. lia.
      * exists lat, lng. auto.
    + split; [lia|]. exists lat, lng. auto.
Qed.

(** X17: a destination with both coordinates whose name is not text (null
    or a number) gives no result: the classifier is reached and
    [name.lower()] raises [AttributeError]. *)
Theorem validate_destination_name_not_text (dest : gmap string pyval)
  (name vlat vlng : pyval) (lat lng : R) :
  dest !! "name" = Some name ->
  (forall s, name <> PStr s) ->
  dest !! "latitude" = Some vlat ->
  dest !! "longitude" = Some vlng ->
  float_if_set str_to_float vlat = Ok (Some lat) ->
  float_if_set str_to_float vlng = Ok (Some lng) ->
  validate_destination dest = Raise AttributeError.
Proof.
  intros Hn Hname Hlat Hlng Hflat Hflng.
  unfold ValidateCoordinates.validate_destination. cbv zeta.
  rewrite (bind_Ok_l _ _ _ (getitem_Some _ _ _ Hn)).
  rewrite (bind_Ok_l _ _ _ (getitem_Some _ _ _ Hlat)).
  rewrite (bind_Ok_l _ _ _ Hflat).
  rewrite (bind_Ok_l _ _ _ (getitem_Some _ _ _ Hlng)).
  rewrite (bind_Ok_l _ _ _ Hflng).
  destruct name as [|s|r]; [reflexivity | | reflexivity].
  destruct (Hname s eq_refl).
Qed.

End OrchestratorResults.

Section OrchestratorServices.
Local Open Scope string_scope.
Import ValidateCoordinates.

(** X18: the USGS service is asked only for water features: for a
    destination whose name is not text that the classifier accepts,
    [validate_destination] gives the same outcome whatever the service
    answers. *)
Theorem validate_destination_usgs_unused
  (str_to_float : string -> option R)
  (usgs_reply usgs_reply' : R -> R -> option string)
  (nominatim_display_name : R -> R -> option string)
  (dest : gmap string pyval) :
  (forall n, dest !! "name" = Some (PStr n) -> is_water_feature n = false) ->
  validate_destination str_to_float usgs_reply nominatim_display_name dest
  = validate_destination str_to_float usgs_reply' nominatim_display_name dest.
Proof.
  intros Hname. unfold validate_destination. cbv zeta.
  destruct (dest !! "name") as [name|] eqn:Hn;
    [|rewrite !(bind_Raise_l _ _ _ (getitem_None _ _ Hn)); reflexivity].
  rewrite !(bind_Ok_l _ _ _ (getitem_Some _ _ _ Hn)).
  destruct (getitem dest "latitude") as [vlat|e]; [|reflexivity].
  rewrite !(bind_Ok_l (Ok vlat) _ vlat eq_refl).
  destruct (float_if_set str_to_float vlat) as [olat|e]; [|reflexivity].
  rewrite !(bind_Ok_l (Ok olat) _ olat eq_refl).
  destruct (getitem dest "longitude") as [vlng|e]; [|reflexivity].
  rewrite !(bind_Ok_l (Ok vlng) _ vlng eq_refl).
  destruct (float_if_set str_to_float vlng) as [olng|e]; [|reflexivity].
  rewrite !(bind_Ok_l (Ok olng) _ olng eq_refl).
  destruct olat as [lat|], olng as [lng|]; try reflexivity.
  destruct name as [|n|r]; try reflexivity.
  rewrite !(bind_Ok_l (as_str (PStr n)) _ n eq_refl).
  rewrite (Hname n eq_refl). reflexivity.
Qed.

End OrchestratorServices.

(** ** More on the loop of [main] of [validate_coordinates.py] *)

Section MainLoop.
Local Open Scope string_scope.
Import ValidateCoordinates.

Variable str_to_float : string -> option R.
Variable usgs_reply : R -> R -> option string.
Variable nominatim_display_name : R -> R -> option string.

Local Abbreviation validate_destination :=
  (ValidateCoordinates.validate_destination
     str_to_float usgs_reply nominatim_display_name).
Local Abbreviation main_loop :=
  (ValidateCoordinates.main_loop
     str_to_float usgs_reply nominatim_display_name).
Local Abbreviation has_status :=
  (ValidateCoordinates.has_status
     str_to_float usgs_reply nominatim_display_name).
Local Abbreviation status_count :=
  (ValidateCoordinates.status_count
     str_to_float usgs_reply nominatim_display_name).

(** The loop over a list in two parts is the loop over the first part
    followed by the loop over the second. *)
Lemma main_loop_app pre post stats :
  main_loop (pre ++ post) stats
  = main_loop pre stats ≫= main_loop post.
Proof.
  revert stats. induction pre as [|dest pre IH]; intros stats; [reflexivity|].
  cbn [app ValidateCoordinates.main_loop].
  destruct (getitem dest "name") as [name|e]; [|reflexivity].
  rewrite !(bind_Ok_l (Ok name) _ name eq_refl).
  destruct (validate_destination dest) as [r|e]; [|reflexivity].
  rewrite !(bind_Ok_l (Ok r) _ r eq_refl).
  destruct (getitem stats (status r)) as [count|e]; [|reflexivity].
  rewrite !(bind_Ok_l (Ok count) _ count eq_refl).
  apply IH.
Qed.

Lemma validate_destination_name dest e :
  validate_destination dest = Raise e ->
  getitem dest "name" = Raise e \/ exists name, getitem dest "name" = Ok name.
Proof.
  unfold ValidateCoordinates.validate_destination. cbv zeta.
  destruct (getitem dest "name") as [name|e']; cbn; [eauto|].
  intros [= ->]. auto.
Qed.

(** X19: the loop of [main] stops at the first destination for which
    [validate_destination] raises: the exception ends the run, and the
    destinations after it are not looked at, nor are the counters
    returned. *)
Theorem main_loop_stops (pre post : list (gmap string pyval))
  (dest : gmap string pyval) (e : exn) :
  Forall (fun d => returns (validate_destination d)) pre ->
  validate_destination dest = Raise e ->
  main_loop (pre ++ dest :: post) initial_stats = Raise e.
Proof.
  intros Hpre He. rewrite main_loop_app.
  destruct (main_loop_counts str_to_float usgs_reply nominatim_display_name
              pre initial_stats 0 0 0)%nat
    as (stats & a & b & c & Hm & _); try reflexivity; [exact Hpre|].
  rewrite (bind_Ok_l _ _ _ Hm). cbn [ValidateCoordinates.main_loop].
  destruct (validate_destination_name dest e He) as [Hn | [name Hn]].
  - rewrite (bind_Raise_l _ _ _ Hn). reflexivity.
  - rewrite (bind_Ok_l _ _ _ Hn), (bind_Raise_l _ _ _ He). reflexivity.
Qed.

Lemma has_status_Ok dest r s :
  validate_destination dest = Ok r ->
  has_status s dest = String.eqb (status r) s.
Proof. unfold ValidateCoordinates.has_status. intros ->. reflexivity. Qed.

Lemma main_loop_status_counts destinations :
  forall (stats : gmap string nat) (a b c : nat),
    stats !! "OK" = Some a ->
    stats !! "WARNING" = Some b ->
    stats !! "MISSING" = Some c ->
    (forall k, k <> "OK" -> k <> "WARNING" -> k <> "MISSING" ->
               stats !! k = None) ->
    Forall (fun dest => returns (validate_destination dest)) destinations ->
    exists stats',
      main_loop destinations stats = Ok stats'
      /\ stats' !! "OK" = Some (a + status_count "OK" destinations)%nat
      /\ stats' !! "WARNING" = Some (b + status_count "WARNING" destinations)%nat
      /\ stats' !! "MISSING" = Some (c + status_count "MISSING" destinations)%nat
      /\ (forall k, k <> "OK" -> k <> "WARNING" -> k <> "MISSING" ->
                    stats' !! k = None).
Proof.
  induction destinations as [|dest rest IH];
    intros stats a b c Ha Hb Hc Hother Hall.
  - exists stats. cbn. rewrite !Nat.add_0_r. auto.
  - apply Forall_cons in Hall as [[r Hr] Hrest].
    cbn [ValidateCoordinates.main_loop].
    assert (Hname : exists name, getitem dest "name" = Ok name).
    { pose proof Hr as H.
      unfold ValidateCoordinates.validate_destination in H.
      apply bind_Ok in H as (name & Hn & _). eauto. }
    destruct Hname as [name Hname].
    rewrite (bind_Ok_l _ _ _ Hname), (bind_Ok_l _ _ _ Hr).
    unfold ValidateCoordinates.status_count. cbn [List.filter].
    rewrite !(has_status_Ok dest r _ Hr).
    destruct (validate_destination_statuses str_to_float usgs_reply
                nominatim_display_name dest r Hr) as [Hs | [Hs | Hs]];
      rewrite Hs.
    + rewrite (bind_Ok_l _ _ _ (getitem_Some _ _ _ Ha)).
      destruct (IH (<["OK" := (a + 1)%nat]> stats) (a + 1)%nat b c)
        as (stats' & Hm & Ha' & Hb' & Hc' & Ho'); auto.
      * apply lookup_insert_eq.
      * rewrite lookup_insert_ne; [exact Hb | discriminate].
      * rewrite lookup_insert_ne; [exact Hc | discriminate].
      * intros k H1 H2 H3. rewrite lookup_insert_ne; auto.
      * exists stats'. split; [exact Hm|].
        unfold ValidateCoordinates.status_count in *.
        cbn [String.eqb Ascii.eqb Bool.eqb andb List.length].
        rewrite Ha', Hb', Hc'. repeat split; auto; f_equal; lia.
    + rewrite (bind_Ok_l _ _ _ (getitem_Some _ _ _ Hb)).
      destruct (IH (<["WARNING" := (b + 1)%nat]> stats) a (b + 1)%nat c)
        as (stats' & Hm & Ha' & Hb' & Hc' & Ho'); auto.
      * rewrite lookup_insert_ne; [exact Ha | discriminate].
      * apply lookup_insert_eq.
      * rewrite lookup_insert_ne; [exact Hc | discriminate].
      * intros k H1 H2 H3. rewrite lookup_insert_ne; auto.
      * exists stats'. split; [exact Hm|].
        unfold ValidateCoordinates.status_count in *.
        cbn [String.eqb Ascii.eqb Bool.eqb andb List.length].
        rewrite Ha', Hb', Hc'. repeat split; auto; f_equal; lia.
    + rewrite (bind_Ok_l _ _ _ (getitem_Some _ _ _ Hc)).
      destruct (IH (<["MISSING" := (c + 1)%nat]> stats) a b (c + 1)%nat)
        as (stats' & Hm & Ha' & Hb' & Hc' & Ho'); auto.
      * rewrite lookup_insert_ne; [exact Ha | discriminate].
      * rewrite lookup_insert_ne; [exact Hb | discriminate].
      * apply lookup_insert_eq.
      * intros k H1 H2 H3. rewrite lookup_insert_ne; auto.
      * exists stats'. split; [exact Hm|].
        unfold ValidateCoordinates.status_count in *.
        cbn [String.eqb Ascii.eqb Bool.eqb andb List.length].
        rewrite Ha', Hb', Hc'. repeat split; auto; f_equal; lia.
Qed.

(** X20: when [validate_destination] returns for each destination, each
    of the three counters that [main] prints is the number of destinations
    whose result has that status, and [stats] holds no other key. *)
Theorem main_counts_by_status (destinations : list (gmap string pyval)) :
  Forall (fun dest => returns (validate_destination dest)) destinations ->
  exists stats,
    main_loop destinations initial_stats = Ok stats
    /\ stats !! "OK" = Some (status_count "OK" destinations)
    /\ stats !! "WARNING" = Some (status_count "WARNING" destinations)
    /\ stats !! "MISSING" = Some (status_count "MISSING" destinations)
    /\ (forall k, k <> "OK" -> k <> "WARNING" -> k <> "MISSING" ->
                  stats !! k = None).
Proof.
  intros Hall.
  destruct (main_loop_status_counts destinations initial_stats 0 0 0)%nat
    as (stats & Hm & Ha & Hb & Hc & Ho); try reflexivity; [|exact Hall|].
  - intros k H1 H2 H3. unfold initial_stats.
    rewrite !lookup_insert_ne by congruence. apply lookup_empty.
  - exists stats. auto.
Qed.

End MainLoop.

(** ** The issues of [coordinate_report.py] *)

Section ReportIssues.
Local Open Scope string_scope.
Import CoordinateReport.

Variable str_to_float : string -> option R.

Lemma check_known_grows name lat lng issues issues' :
  check_known name lat lng issues = Ok issues' ->
  issues' = issues
  \/ exists i, issues' = (issues ++ [i])%list /\ grounded i
               /\ issue_name i = name /\ current i = (lat, lng).
Proof.
  rewrite check_known_spec.
  destruct (known name) as [k|] eqn:Hk; [|intros [= <-]; auto].
  destruct (bool_decide (haversine_m lat lng k.1 k.2 > 100)%R) eqn:Hd;
    [|intros [= <-]; auto].
  apply bool_decide_eq_true in Hd. intros [= <-]. right.
  eexists. split; [reflexivity|]. split; [|split; reflexivity].
  apply known_spec in Hk as (s & -> & Hs).
  unfold grounded. cbn. split; [exact Hd|]. split; [reflexivity|].
  split; [eauto | apply haversine_distance_eq].
Qed.

Lemma check_destination_grows dest issues issues' :
  check_destination str_to_float dest issues = Ok issues' ->
  issues' = issues
  \/ exists i, issues' = (issues ++ [i])%list /\ grounded i
               /\ dest !! "name" = Some (issue_name i).
Proof.
  unfold check_destination. intros H.
  apply bind_Ok in H as (name & Hn%getitem_Ok & H).
  apply bind_Ok in H as (vlat & _ & H).
  apply bind_Ok in H as (olat & _ & H).
  apply bind_Ok in H as (vlng & _ & H).
  apply bind_Ok in H as (olng & _ & H).
  destruct olat as [lat|], olng as [lng|]; try (injection H as <-; auto).
  apply check_known_grows in H as [-> | (i & -> & Hg & Hi & _)]; [auto|].
  right. exists i. rewrite Hi. auto.
Qed.

Lemma check_destinations_grows destinations :
  forall issues issues',
    check_destinations str_to_float destinations issues = Ok issues' ->
    exists more,
      issues' = (issues ++ more)%list
      /\ Forall grounded more
      /\ (List.length more <= List.length destinations)%nat
      /\ Forall (fun i => exists dest,
                   dest ∈ destinations /\ dest !! "name" = Some (issue_name i))
           more.
Proof.
  induction destinations as [|dest rest IH]; intros issues issues' H.
  - injection H as <-. exists []. rewrite app_nil_r. cbn.
    repeat split; auto.
  - cbn [check_destinations] in H.
    apply bind_Ok in H as (mid & Hd & H).
    apply IH in H as (more & -> & Hg & Hlen & Hfrom).
    assert (Hfrom' : Forall (fun i => exists d,
                        d ∈ dest :: rest /\ d !! "name" = Some (issue_name i))
                       more).
    { eapply Forall_impl; [exact Hfrom|]. cbn. intros i (d & Hin & Hname).
      exists d. split; [apply elem_of_cons; auto | exact Hname]. }
    apply check_destination_grows in Hd as [-> | (i & -> & Hi & Hname)].
    + exists more. repeat split; auto. cbn [List.length]. lia.
    + exists (i :: more). rewrite <- app_assoc. cbn [app List.length].
      repeat split; [constructor; auto | lia |].
      constructor; [|exact Hfrom'].
      exists dest. split; [apply elem_of_cons; auto | exact Hname].
Qed.

(** X21: every issue that the loop of [main] collects is borne out by the
    table: its name is a key of [KNOWN_COORDINATES] and the name of one of
    the destinations, its suggestion is the entry of the table, and its
    distance is the haversine distance from the current to the suggested
    coordinates and is above 100.  There are no more issues than
    destinations. *)
Theorem check_destinations_grounded
  (destinations : list (gmap string pyval)) (issues : list issue) :
  check_destinations str_to_float destinations [] = Ok issues ->
  Forall grounded issues
  /\ (List.length issues <= List.length destinations)%nat
  /\ Forall (fun i => exists dest,
               dest ∈ destinations /\ dest !! "name" = Some (issue_name i))
       issues.
Proof.
  intros H. apply check_destinations_grows in H as (more & -> & H).
  exact H.
Qed.


End ReportIssues.

(** ** The rows of [validate_water_features.py] *)

Section WaterFeatureRows.
Local Open Scope string_scope.
Import ValidateWaterFeatures.

Variable str_to_float : string -> option R.

Lemma find_nearest_cases lat lng sites :
  (sites = [] /\ find_nearest_usgs_site lat lng sites = Ok (None, Inf))
  \/ exists site,
       find_nearest_usgs_site lat lng sites
       = Ok (Some site,
             Fin (haversine_m lat lng (site_lat site) (site_lng site)))
       /\ site ∈ sites
       /\ forall s, s ∈ sites ->
            (haversine_m lat lng (site_lat site) (site_lng site)
             <= haversine_m lat lng (site_lat s) (site_lng s))%R.
Proof.
  unfold find_nearest_usgs_site.
  destruct (find_nearest_loop_spec lat lng sites None Inf)
    as (n' & m' & Heq
        & [(-> & -> & Hall) | (i & s & Hi & -> & -> & _ & Hmin & _)]).
  - left. split; [|exact Heq].
    destruct sites as [|site rest]; [reflexivity|].
    assert (Hin : site ∈ site :: rest) by (apply elem_of_cons; auto).
    specialize (Hall site Hin). discriminate.
  - right. exists s. split; [exact Heq|].
    split; [eapply list_elem_of_lookup_2; exact Hi | exact Hmin].
Qed.

Lemma check_status_Fin d :
  check_status (Fin d)
  = if bool_decide (d < 300)%R then "OK"
    else if bool_decide (d < 1000)%R then "CHECK" else "FAR".
Proof. reflexivity. Qed.

(** The invariant of the loop: the rows and the issues only grow, by a row
    for each water feature and by the issues of these rows. *)
Lemma main_loop_rows usgs_sites features :
  forall rows issues rows' issues',
    main_loop str_to_float usgs_sites features rows issues
    = Ok (rows', issues') ->
    exists new,
      rows' = (rows ++ new)%list
      /\ issues' = (issues ++ omap row_issue new)%list
      /\ Forall2 (fun r dest => dest !! "name" = Some (row_name r)) new features
      /\ Forall (row_sound usgs_sites) new.
Proof.
  induction features as [|dest rest IH]; intros rows issues rows' issues' H.
  - injection H as <- <-. exists []. rewrite !app_nil_r.
    repeat split; constructor.
  - cbn [main_loop] in H.
    apply bind_Ok in H as (name & Hn%getitem_Ok & H).
    apply bind_Ok in H as (vlat & _ & H).
    apply bind_Ok in H as (olat & _ & H).
    apply bind_Ok in H as (vlng & _ & H).
    apply bind_Ok in H as (olng & _ & H).
    assert (Hstep : forall r rows1 issues1,
      main_loop str_to_float usgs_sites rest rows1 issues1 = Ok (rows', issues') ->
      rows1 = (rows ++ [r])%list ->
      issues1 = (issues ++ omap row_issue [r])%list ->
      row_name r = name -> row_sound usgs_sites r ->
      exists new,
        rows' = (rows ++ new)%list
        /\ issues' = (issues ++ omap row_issue new)%list
        /\ Forall2 (fun r dest => dest !! "name" = Some (row_name r)) new
             (dest :: rest)
        /\ Forall (row_sound usgs_sites) new).
    { intros r rows1 issues1 Hm -> -> Hname Hsound.
      apply IH in Hm as (new & -> & -> & Hnames & Hsounds).
      exists (r :: new). rewrite <- !app_assoc.
      assert (Ho : omap row_issue (r :: new)
                   = (omap row_issue [r] ++ omap row_issue new)%list)
        by (cbn; destruct (row_issue r); reflexivity).
      rewrite Ho.
      repeat split; auto; constructor; auto. rewrite Hname. exact Hn. }
    destruct olat as [lat|], olng as [lng|];
      try (apply (Hstep (MissingCoords name) _ _ H); cbn;
           rewrite ?app_nil_r; auto; fail).
    apply bind_Ok in H as ([nearest distance] & Hfound & H).
    destruct (find_nearest_cases lat lng usgs_sites)
      as [[Hnil Hf] | (site & Hf & Hin & Hmin)];
      rewrite Hf in Hfound; injection Hfound as <- <-.
    + apply (Hstep (NoData name lat lng) _ _ H); cbn;
        rewrite ?app_nil_r; auto.
    + set (d := haversine_m lat lng (site_lat site) (site_lng site)) in *.
      assert (Hsound : row_sound usgs_sites
                (Checked name lat lng (Fin d) site (check_status (Fin d)))).
      { exists d. split; [reflexivity|]. split; [exact Hin|].
        split; [apply haversine_distance_eq|].
        split; [|apply check_status_Fin].
        apply Forall_forall. intros s Hs.
        exists (haversine_m lat lng (site_lat s) (site_lng s)).
        split; [apply haversine_distance_eq | apply Hmin; exact Hs]. }
      cbv zeta in H.
      destruct (negb (String.eqb (check_status (Fin d)) "OK")) eqn:Hst.
      * apply (Hstep (Checked name lat lng (Fin d) site (check_status (Fin d)))
                 _ _ H); auto.
        cbn [omap row_issue]. unfold list_omap, row_issue.
        rewrite Hst. reflexivity.
      * apply (Hstep (Checked name lat lng (Fin d) site (check_status (Fin d)))
                 _ _ H); auto.
        cbn [omap row_issue]. unfold list_omap, row_issue.
        rewrite Hst. cbn. rewrite app_nil_r. reflexivity.
Qed.

Lemma water_features_filter destinations features :
  water_features destinations = Ok features ->
  features = List.filter named_water_feature destinations.
Proof.
  revert features.
  induction destinations as [|d rest IH]; intros features H; cbn in H.
  - injection H as <-. reflexivity.
  - apply bind_Ok in H as (v & Hv%getitem_Ok & H).
    apply bind_Ok in H as (n & Hn & H).
    apply bind_Ok in H as (rest' & Hrest & H).
    destruct v as [|s|]; try discriminate. injection Hn as ->.
    injection H as <-. cbn [List.filter]. unfold named_water_feature at 1.
    rewrite Hv, (IH rest' Hrest). reflexivity.
Qed.

(** X23: [main] writes one row for each destination whose name the
    classifier accepts, in the order of the destinations and under its
    name; the other destinations give no row. *)
Theorem main_rows_of_water_features
  (destinations : list (gmap string pyval)) (reply : option string)
  (rows : list row) (issues : list (pyval * xfloat * usgs_site)) :
  main str_to_float destinations reply = Ok (rows, issues) ->
  Forall2 (fun r dest => dest !! "name" = Some (row_name r)) rows
    (List.filter named_water_feature destinations).
Proof.
  unfold main. cbv zeta. intros H.
  apply bind_Ok in H as (features & Hf & H).
  apply water_features_filter in Hf as ->.
  apply main_loop_rows in H as (new & -> & _ & Hnames & _).
  exact Hnames.
Qed.


(** X25: when the request to the USGS service fails, [main] still writes
    its rows, none of them with a site, and reports no issue. *)
Theorem main_without_sites
  (destinations : list (gmap string pyval))
  (rows : list row) (issues : list (pyval * xfloat * usgs_site)) :
  main str_to_float destinations None = Ok (rows, issues) ->
  issues = []
  /\ Forall (fun r => exists name,
               r = MissingCoords name \/ exists lat lng, r = NoData name lat lng)
       rows.
Proof.
  unfold main. cbv zeta. intros H.
  apply bind_Ok in H as (features & _ & H).
  apply main_loop_rows in H as (new & -> & -> & _ & Hsound).
  cbn [get_usgs_sites_in_area app] in *.
  assert (Hrows : Forall (fun r => exists name,
                    r = MissingCoords name
                    \/ exists lat lng, r = NoData name lat lng) new).
  { eapply Forall_impl; [exact Hsound|]. cbn.
    intros [name|name lat lng d site st|name lat lng] Hr.
    - eauto.
    - destruct Hr as (d' & _ & Hin & _). inversion Hin.
    - eauto 6. }
  split; [|exact Hrows].
  clear Hsound. induction Hrows as [|r l (name & [-> | (lat & lng & ->)]) _ IH];
    [reflexivity | exact IH | exact IH].
Qed.

(** [main] returns for destinations that it can handle. *)
Lemma main_loop_returns usgs_sites features :
  Forall (fun d => well_formed str_to_float d /\ named_water_feature d = true)
    features ->
  forall rows issues,
    returns (main_loop str_to_float usgs_sites features rows issues).
Proof.
  induction 1 as [|dest rest [(n & Hn & Hw) Hfeat] _ IH]; intros rows issues.
  - eexists. reflexivity.
  - unfold named_water_feature in Hfeat. rewrite Hn in Hfeat.
    destruct (Hw Hfeat) as (vlat & vlng & olat & olng & Hlat & Hlng & Hflat & Hflng).
    cbn [main_loop].
    rewrite (bind_Ok_l _ _ _ (getitem_Some _ _ _ Hn)).
    rewrite (bind_Ok_l _ _ _ (getitem_Some _ _ _ Hlat)).
    rewrite (bind_Ok_l _ _ _ Hflat).
    rewrite (bind_Ok_l _ _ _ (getitem_Some _ _ _ Hlng)).
    rewrite (bind_Ok_l _ _ _ Hflng).
    destruct olat as [lat|], olng as [lng|]; try apply IH.
    destruct (find_nearest_cases lat lng usgs_sites)
      as [[_ Hf] | (site & Hf & _)]; rewrite (bind_Ok_l _ _ _ Hf).
    + apply IH.
    + cbv zeta. destruct (negb _); apply IH.
Qed.

Lemma main_returns destinations reply :
  Forall (well_formed str_to_float) destinations ->
  returns (main str_to_float destinations reply).
Proof.
  intros Hwf. unfold main. cbv zeta.
  assert (Hf : water_features destinations
               = Ok (List.filter named_water_feature destinations)).
  { induction Hwf as [|d rest (n & Hn & _) _ IH]; [reflexivity|].
    cbn [water_features List.filter].
    rewrite (bind_Ok_l _ _ _ (getitem_Some _ _ _ Hn)).
    rewrite (bind_Ok_l _ _ n eq_refl), (bind_Ok_l _ _ _ IH).
    assert (Hd : named_water_feature d = is_water_feature n)
      by (unfold named_water_feature; rewrite Hn; reflexivity).
    rewrite Hd. reflexivity. }
  rewrite (bind_Ok_l _ _ _ Hf). apply main_loop_returns.
  apply Forall_forall. intros d Hd.
  apply list_elem_of_In, filter_In in Hd as [Hin Hfeat].
  split; [|exact Hfeat].
  rewrite Forall_forall in Hwf. apply Hwf. apply list_elem_of_In. exact Hin.
Qed.

End WaterFeatureRows.

(** ** The rows of [generate_map_tiles.py] *)

Section MapTiles.
Local Open Scope string_scope.
Import GenerateMapTiles.

Variable str_to_float : string -> option R.

Lemma tiles_main_loop_app pre post rows :
  main_loop str_to_float (pre ++ post) rows
  = main_loop str_to_float pre rows ≫= main_loop str_to_float post.
Proof.
  revert rows. induction pre as [|dest pre IH]; intros rows; [reflexivity|].
  cbn [app main_loop].
  destruct (getitem dest "name") as [name|e]; [|reflexivity].
  rewrite !(bind_Ok_l (Ok name) _ name eq_refl). cbv zeta.
  destruct (truthy (get dest "latitude") && truthy (get dest "longitude"));
    [|apply IH].
  destruct (get_map_tile_url str_to_float (get dest "latitude")
              (get dest "longitude") 15) as [u|e]; [|reflexivity].
  rewrite !(bind_Ok_l (Ok u) _ u eq_refl). apply IH.
Qed.

Lemma get_map_tile_url_Ok lat lng zoom u :
  get_map_tile_url str_to_float lat lng zoom = Ok u ->
  exists lat_f lng_f,
    u = StaticMap lat_f lng_f zoom
    /\ py_float str_to_float lat = Ok lat_f
    /\ py_float str_to_float lng = Ok lng_f.
Proof.
  unfold get_map_tile_url. intros H.
  apply bind_Ok in H as (lat_f & Hlat & H).
  apply bind_Ok in H as (lng_f & Hlng & H).
  injection H as <-. eauto.
Qed.

Lemma tiles_main_loop_rows destinations :
  forall rows rows',
    main_loop str_to_float destinations rows = Ok rows' ->
    exists new,
      rows' = (rows ++ new)%list
      /\ Forall2 (row_right str_to_float) new destinations.
Proof.
  induction destinations as [|dest rest IH]; intros rows rows' H.
  - injection H as <-. exists []. rewrite app_nil_r. split; constructor.
  - cbn [main_loop] in H.
    apply bind_Ok in H as (name & Hn%getitem_Ok & H). cbv zeta in H.
    destruct (truthy (get dest "latitude") && truthy (get dest "longitude"))
      eqn:Ht.
    + apply bind_Ok in H as (u & Hu & H).
      apply IH in H as (new & -> & Hnew).
      exists ((name, Some u) :: new). rewrite <- app_assoc.
      split; [reflexivity|]. constructor; [|exact Hnew].
      split; [exact Hn|]. cbn. split; [exact Ht|].
      apply get_map_tile_url_Ok. exact Hu.
    + apply IH in H as (new & -> & Hnew).
      exists ((name, None) :: new). rewrite <- app_assoc.
      split; [reflexivity|]. constructor; [|exact Hnew].
      split; [exact Hn | exact Ht].
Qed.

(** X26: [main] writes one row for each destination, in their order and
    under their names.  The row has a URL exactly when the latitude and
    the longitude are both there and count as true; the URL shows these
    two coordinates at zoom 15.  A destination without the coordinate
    fields gets a row with an empty URL: here no [KeyError] is raised for
    them. *)
Theorem tiles_rows (destinations : list (gmap string pyval))
  (rows : list (pyval * option map_url)) :
  main_loop str_to_float destinations [] = Ok rows ->
  Forall2 (row_right str_to_float) rows destinations.
Proof.
  intros H. apply tiles_main_loop_rows in H as (new & -> & Hnew).
  exact Hnew.
Qed.

(** X27: the coordinates are not checked to be numbers before [float]
    reads them: the first destination that has a name and two
    coordinates that count as true, one of them text that [float]
    refuses, ends the run with [ValueError], and no row is returned. *)
Theorem tiles_not_a_number (pre post : list (gmap string pyval))
  (dest : gmap string pyval) (name : pyval) :
  returns (main_loop str_to_float pre []) ->
  dest !! "name" = Some name ->
  not_a_number str_to_float dest ->
  main_loop str_to_float (pre ++ dest :: post) [] = Raise ValueError.
Proof.
  intros [rows Hpre] Hn [Ht Hbad]. rewrite tiles_main_loop_app.
  rewrite (bind_Ok_l _ _ _ Hpre). cbn [main_loop].
  rewrite (bind_Ok_l _ _ _ (getitem_Some _ _ _ Hn)). cbv zeta.
  rewrite Ht. unfold get_map_tile_url.
  destruct Hbad as [Hbad | Hbad].
  - rewrite (bind_Raise_l _ _ _ Hbad). reflexivity.
  - destruct (py_float str_to_float (get dest "latitude")) as [lat_f|e] eqn:Hlat.
    + rewrite (bind_Ok_l (Ok lat_f) _ lat_f eq_refl).
      rewrite (bind_Raise_l _ _ _ Hbad). reflexivity.
    + assert (e = ValueError) as ->.
      { destruct (get dest "latitude") as [|s|r]; cbn in Hlat.
        - apply andb_true_iff in Ht as [Ht _]. discriminate.
        - apply (float_of_str_Raise str_to_float s). exact Hlat.
        - discriminate. }
      reflexivity.
Qed.

End MapTiles.

(** ** The choice of an image in [find_images.py] *)

Section Images.
Local Open Scope string_scope.
Import FindImages.

Variable wikimedia_reply : string -> option (option (list (string * page))).
Variable str_to_float : string -> option R.
Variable float_to_str : R -> string.

Local Abbreviation search_wikimedia := (FindImages.search_wikimedia wikimedia_reply).
Local Abbreviation found := FindImages.found.
Local Abbreviation queries := (FindImages.queries float_to_str).
Local Abbreviation main_loop :=
  (FindImages.main_loop wikimedia_reply str_to_float float_to_str).
Local Abbreviation image_row_right :=
  (FindImages.image_row_right wikimedia_reply str_to_float float_to_str).

(** The URL that the loop returns is the one that it had, or that of a
    page whose first image is at least 400 wide and 300 high. *)
Lemma best_loop_large pages :
  forall best_url best_score r,
    best_loop pages best_url best_score = Ok r ->
    r = best_url
    \/ exists page_id page i rest,
         (page_id, page) ∈ pages
         /\ imageinfo page = Some (i :: rest)
         /\ (400 <= get_default (width i) 0)%Z
         /\ (300 <= get_default (height i) 0)%Z
         /\ r = thumb_or_url i.
Proof.
  induction pages as [|[page_id page] pages IH]; intros best_url best_score r H.
  - injection H as <-. auto.
  - assert (Hrest : forall b sc,
      best_loop pages b sc = Ok r ->
      r = b
      \/ exists page_id0 page0 i rest,
           (page_id0, page0) ∈ (page_id, page) :: pages
           /\ imageinfo page0 = Some (i :: rest)
           /\ (400 <= get_default (width i) 0)%Z
           /\ (300 <= get_default (height i) 0)%Z
           /\ r = thumb_or_url i).
    { intros b sc Hb. apply IH in Hb as [-> | (p0 & pg0 & i & rest & Hin & Hi)];
        [auto|].
      right. exists p0, pg0, i, rest. split; [|exact Hi].
      apply elem_of_cons. auto. }
    cbn [best_loop] in H.
    destruct (imageinfo page) as [infos|] eqn:Hinfo; [|apply (Hrest _ _ H)].
    apply bind_Ok in H as (i & Hi%index_Ok & H). cbv zeta in H.
    destruct infos as [|i0 rest]; [discriminate|]. injection Hi as ->.
    destruct ((get_default (width i) 0 <? 400)%Z
              || (get_default (height i) 0 <? 300)%Z) eqn:Htiny;
      [apply (Hrest _ _ H)|].
    apply orb_false_iff in Htiny as [Hw%Z.ltb_ge Hh%Z.ltb_ge].
    match type of H with
    | (if ?c then _ else _) = _ => destruct c
    end; [|apply (Hrest _ _ H)].
    apply Hrest in H as [-> | H]; [|auto].
    right. exists page_id, page, i, rest.
    split; [apply elem_of_cons; auto|]. auto.
Qed.

(** X28: an image that [search_wikimedia] returns is never a small one:
    the URL is the [thumburl], or without it the [url], of the first
    image of a page of the answer, and that image is at least 400 wide and
    300 high. *)
Theorem search_wikimedia_large (query image_url : string) :
  search_wikimedia query = Some image_url ->
  exists pages page_id page i rest,
    wikimedia_reply query = Some (Some pages)
    /\ (page_id, page) ∈ pages
    /\ imageinfo page = Some (i :: rest)
    /\ (400 <= get_default (width i) 0)%Z
    /\ (300 <= get_default (height i) 0)%Z
    /\ thumb_or_url i = Some image_url.
Proof.
  unfold FindImages.search_wikimedia.
  destruct (wikimedia_reply query) as [[pages|]|]; try discriminate.
  destruct (best_loop pages None 0) as [r|e] eqn:Hloop; [|discriminate].
  intros ->. apply best_loop_large in Hloop
    as [Hnone | (page_id & page & i & rest & Hin & Hinfo & Hw & Hh & Hurl)];
    [discriminate|].
  exists pages, page_id, page, i, rest. auto 10.
Qed.

Lemma best_loop_empty_imageinfo pages page_id page :
  (page_id, page) ∈ pages -> imageinfo page = Some [] ->
  forall best_url best_score,
    best_loop pages best_url best_score = Raise IndexError.
Proof.
  intros Hin Hempty.
  induction pages as [|[pid pg] pages IH]; [inversion Hin|].
  intros best_url best_score. cbn [best_loop].
  apply elem_of_cons in Hin as [Heq | Hin].
  - injection Heq as <- <-. rewrite Hempty. reflexivity.
  - specialize (IH Hin).
    destruct (imageinfo pg) as [[|i rest]|]; [reflexivity | | apply IH].
    rewrite (bind_Ok_l (index (i :: rest) 0) _ i eq_refl). cbv zeta.
    destruct ((get_default (width i) 0 <? 400)%Z
              || (get_default (height i) 0 <? 300)%Z); [apply IH|].
    match goal with
    | |- (if ?c then _ else _) = _ => destruct c
    end; apply IH.
Qed.

(** X29: one page whose list [imageinfo] is empty spoils the whole
    answer: reading its first entry raises [IndexError], the handler of
    [search_wikimedia] returns [None], and the images of the other pages
    are lost. *)
Theorem search_wikimedia_empty_imageinfo (query : string)
  (pages : list (string * page)) (page_id : string) (page : page) :
  wikimedia_reply query = Some (Some pages) ->
  (page_id, page) ∈ pages ->
  imageinfo page = Some [] ->
  search_wikimedia query = None.
Proof.
  intros Hreply Hin Hempty. unfold FindImages.search_wikimedia.
  rewrite Hreply, (best_loop_empty_imageinfo pages page_id page Hin Hempty).
  reflexivity.
Qed.

(** The loop over the queries returns the URL of the first query that
    gives one; when none does, what it returns is not a URL. *)
Lemma first_image_cases qs :
  forall init, found init = false ->
    (exists (i : nat) q u,
       qs !! i = Some q /\ search_wikimedia q = Some u /\ u <> ""
       /\ first_image wikimedia_reply qs init = Some u
       /\ forall (j : nat) q', (j < i)%nat -> qs !! j = Some q' ->
            found (search_wikimedia q') = false)
    \/ (found (first_image wikimedia_reply qs init) = false
        /\ forall q, q ∈ qs -> found (search_wikimedia q) = false).
Proof.
  induction qs as [|q qs IH]; intros init Hinit.
  - right. split; [exact Hinit|]. intros q Hq. inversion Hq.
  - cbn [first_image]. cbv zeta.
    destruct (found (search_wikimedia q)) eqn:Hq.
    + left. destruct (search_wikimedia q) as [u|] eqn:Hs; [|discriminate].
      exists 0%nat, q, u. repeat split; auto.
      * cbn in Hq. intros ->. discriminate.
      * intros j q' Hj. lia.
    + destruct (IH (search_wikimedia q) Hq)
        as [(i & q0 & u & Hi & Hs & Hu & Hf & Hearlier) | [Hf Hall]].
      * left. exists (S i), q0, u. repeat split; auto.
        intros [|j] q' Hj Hl; cbn in Hl.
        -- injection Hl as <-. exact Hq.
        -- apply (Hearlier j); [lia | exact Hl].
      * right. split; [exact Hf|]. intros q' Hq'.
        apply elem_of_cons in Hq' as [-> | Hq']; auto.
Qed.

Lemma images_main_loop_rows destinations :
  forall st st',
    main_loop destinations st = Ok st' ->
    exists new,
      rows st' = (rows st ++ new)%list
      /\ Forall2 image_row_right new destinations
      /\ wikimedia_found st'
         = (wikimedia_found st + List.length (List.filter is_wikimedia new))%nat
      /\ map_fallback st'
         = (map_fallback st + List.length (List.filter is_map_tile new))%nat.
Proof.
  induction destinations as [|dest rest IH]; intros st st' H.
  - injection H as <-. exists []. rewrite app_nil_r. cbn.
    repeat split; [constructor | lia | lia].
  - cbn [FindImages.main_loop] in H.
    apply bind_Ok in H as (name & Hn%getitem_Ok & H). cbv zeta in H.
    fold (queries name) in H.
    assert (Hstep : forall row st1,
      main_loop rest st1 = Ok st' ->
      rows st1 = (rows st ++ [row])%list ->
      wikimedia_found st1
      = (wikimedia_found st + List.length (List.filter is_wikimedia [row]))%nat ->
      map_fallback st1
      = (map_fallback st + List.length (List.filter is_map_tile [row]))%nat ->
      image_row_right row dest ->
      exists new,
        rows st' = (rows st ++ new)%list
        /\ Forall2 image_row_right new (dest :: rest)
        /\ wikimedia_found st'
           = (wikimedia_found st + List.length (List.filter is_wikimedia new))%nat
        /\ map_fallback st'
           = (map_fallback st + List.length (List.filter is_map_tile new))%nat).
    { intros row st1 Hm Hrows Hw Hmap Hright.
      apply IH in Hm as (new & Hr & Hnew & Hw' & Hmap').
      exists (row :: new). rewrite Hr, Hrows, <- app_assoc.
      split; [reflexivity|]. split; [constructor; assumption|].
      rewrite Hw', Hw, Hmap', Hmap.
      change (row :: new) with ([row] ++ new)%list.
      rewrite !List.filter_app, !length_app. lia. }
    assert (Hfallback :
      (forall q, q ∈ queries name -> found (search_wikimedia q) = false) ->
      (if truthy (GenerateMapTiles.get dest "latitude")
          && truthy (GenerateMapTiles.get dest "longitude")
       then
         map_url ← GenerateMapTiles.get_map_tile_url str_to_float
                      (GenerateMapTiles.get dest "latitude")
                      (GenerateMapTiles.get dest "longitude") 15;
         main_loop rest
           (mk_progress (rows st ++ [MapTile name map_url])%list
              (wikimedia_found st) (map_fallback st + 1))
       else
         main_loop rest
           (mk_progress (rows st ++ [NoImage name])%list
              (wikimedia_found st) (map_fallback st))) = Ok st' ->
      exists new,
        rows st' = (rows st ++ new)%list
        /\ Forall2 image_row_right new (dest :: rest)
        /\ wikimedia_found st'
           = (wikimedia_found st + List.length (List.filter is_wikimedia new))%nat
        /\ map_fallback st'
           = (map_fallback st + List.length (List.filter is_map_tile new))%nat).
    { intros Hall Hm.
      destruct (truthy (GenerateMapTiles.get dest "latitude")
                && truthy (GenerateMapTiles.get dest "longitude")) eqn:Ht.
      - apply bind_Ok in Hm as (u & Hu & Hm).
        apply (Hstep (MapTile name u) _ Hm); cbn; auto; try lia.
        all: unfold FindImages.image_row_right; cbv zeta; auto.
      - apply (Hstep (NoImage name) _ Hm); cbn; auto; try lia.
        all: unfold FindImages.image_row_right; cbv zeta; auto. }
    destruct (first_image_cases (queries name) None eq_refl)
      as [(i & q & u & Hi & Hs & Hu & Hf & Hearlier) | [Hf Hall]].
    + rewrite Hf in H.
      destruct (String.eqb u "") eqn:He;
        [apply String.eqb_eq in He; contradiction|].
      cbn [negb] in H.
      apply (Hstep (Wikimedia name u) _ H); cbn; auto; try lia.
      all: unfold FindImages.image_row_right; cbv zeta.
      all: split; [exact Hn|]; split; [exact Hu|]; exists i, q; auto.
    + destruct (first_image wikimedia_reply (queries name) None) as [u|] eqn:Hfi.
      * cbn in Hf. rewrite Hf in H. apply (Hfallback Hall H).
      * apply (Hfallback Hall H).
Qed.

(** X30: [main] writes one row for each destination, in their order and
    under their names.  The row shows the image of the first of the three
    queries (the name with "Cuyahoga Valley", with "Ohio", alone) that
    gives one; only when none does is a map of the coordinates shown, and
    only when a coordinate lacks is there no image.  The two counters are
    the numbers of rows of the first and of the second kind. *)
Theorem images_rows (destinations : list (gmap string pyval)) (st : progress) :
  main_loop destinations (mk_progress [] 0 0) = Ok st ->
  Forall2 image_row_right (rows st) destinations
  /\ wikimedia_found st = List.length (List.filter is_wikimedia (rows st))
  /\ map_fallback st = List.length (List.filter is_map_tile (rows st)).
Proof.
  intros H. apply images_main_loop_rows in H as (new & Hr & Hnew & Hw & Hm).
  cbn in Hr, Hw, Hm. rewrite Hr. auto.
Qed.

End Images.

(** ** More examples *)

Section MoreExampleFacts.
Local Open Scope string_scope.


Lemma peninsula_dam_issue :
  exists i,
    CoordinateReport.check_destinations decimal_float
      [peninsula_dam; boston_store] [] = Ok [i].
Proof.
  cbn [CoordinateReport.check_destinations].
  rewrite (check_destination_coords decimal_float peninsula_dam
             (PStr "Peninsula Dam") (PStr "41.30") (PStr "-81.40")
             41.30 (-81.40) [] eq_refl eq_refl eq_refl read_41_30 read_m81_40).
  rewrite check_known_spec, known_peninsula_dam.
  rewrite bool_decide_eq_true_2
    by (pose proof peninsula_dam_distance; cbn [fst snd]; lra).
  rewrite (bind_Ok_l _ _ _ eq_refl).
  rewrite (check_destination_coords decimal_float boston_store
             (PStr "Boston Store") (PStr "41.25") (PStr "-81.55")
             41.25 (-81.55) _ eq_refl eq_refl eq_refl read_41_25 read_m81_55).
  rewrite check_known_spec.
  replace (CoordinateReport.known (PStr "Boston Store")) with (@None (R * R))
    by reflexivity.
  rewrite (bind_Ok_l _ _ _ eq_refl).
  eexists. reflexivity.
Qed.

Lemma well_formed_examples :
  Forall (ValidateWaterFeatures.well_formed decimal_float)
    [peninsula_dam; boston_store; beaver_marsh].
Proof.
  repeat constructor.
  - exists "Peninsula Dam". split; [reflexivity|]. intros _.
    exists (PStr "41.30"), (PStr "-81.40"), (Some 41.30%R), (Some (-81.40)%R).
    repeat split; auto using read_41_30, read_m81_40.
  - exists "Boston Store". split; [reflexivity|]. intros H.
    assert (Hf : ValidateWaterFeatures.is_water_feature "Boston Store" = false)
      by reflexivity.
    rewrite Hf in H. discriminate.
  - exists "Beaver Marsh". split; [reflexivity|]. intros _.
    exists (PStr ""), (PStr ""), None, None. repeat split; reflexivity.
Qed.

(** The loop of [generate_map_tiles.py] returns when each destination has
    a name and its coordinates, if both count as true, can be read. *)
Lemma tiles_main_loop_returns str_to_float destinations :
  Forall (fun dest =>
            is_Some (dest !! "name")
            /\ (truthy (GenerateMapTiles.get dest "latitude")
                && truthy (GenerateMapTiles.get dest "longitude") = true ->
                returns (GenerateMapTiles.get_map_tile_url str_to_float
                           (GenerateMapTiles.get dest "latitude")
                           (GenerateMapTiles.get dest "longitude") 15)))
    destinations ->
  forall rows, returns (GenerateMapTiles.main_loop str_to_float destinations rows).
Proof.
  induction 1 as [|dest rest [[name Hn] Hurl] _ IH]; intros rows.
  - eexists. reflexivity.
  - cbn [GenerateMapTiles.main_loop].
    rewrite (bind_Ok_l _ _ _ (getitem_Some _ _ _ Hn)). cbv zeta.
    destruct (truthy (GenerateMapTiles.get dest "latitude")
              && truthy (GenerateMapTiles.get dest "longitude")); [|apply IH].
    destruct (Hurl eq_refl) as [u Hu]. rewrite (bind_Ok_l _ _ _ Hu). apply IH.
Qed.

(** The same for the loop of [find_images.py]. *)
Lemma images_main_loop_returns wikimedia_reply str_to_float float_to_str
  destinations :
  Forall (fun dest =>
            is_Some (dest !! "name")
            /\ (truthy (GenerateMapTiles.get dest "latitude")
                && truthy (GenerateMapTiles.get dest "longitude") = true ->
                returns (GenerateMapTiles.get_map_tile_url str_to_float
                           (GenerateMapTiles.get dest "latitude")
                           (GenerateMapTiles.get dest "longitude") 15)))
    destinations ->
  forall st,
    returns (FindImages.main_loop wikimedia_reply str_to_float float_to_str
               destinations st).
Proof.
  induction 1 as [|dest rest [[name Hn] Hurl] _ IH]; intros st.
  - eexists. reflexivity.
  - cbn [FindImages.main_loop].
    rewrite (bind_Ok_l _ _ _ (getitem_Some _ _ _ Hn)). cbv zeta.
    assert (Hfall : forall wf mf,
      returns
        (if truthy (GenerateMapTiles.get dest "latitude")
            && truthy (GenerateMapTiles.get dest "longitude")
         then
           map_url ← GenerateMapTiles.get_map_tile_url str_to_float
                        (GenerateMapTiles.get dest "latitude")
                        (GenerateMapTiles.get dest "longitude") 15;
           FindImages.main_loop wikimedia_reply str_to_float float_to_str rest
             (FindImages.mk_progress
                (FindImages.rows st ++ [FindImages.MapTile name map_url])%list
                wf (mf + 1))
         else
           FindImages.main_loop wikimedia_reply str_to_float float_to_str rest
             (FindImages.mk_progress
                (FindImages.rows st ++ [FindImages.NoImage name])%list wf mf))).
    { intros wf mf.
      destruct (truthy (GenerateMapTiles.get dest "latitude")
                && truthy (GenerateMapTiles.get dest "longitude")); [|apply IH].
      destruct (Hurl eq_refl) as [u Hu]. rewrite (bind_Ok_l _ _ _ Hu).
      apply IH. }
    match goal with
    | |- returns (match ?f with _ => _ end) => destruct f as [u|]
    end; [|apply Hfall].
    destruct (negb (String.eqb u "")); [apply IH | apply Hfall].
Qed.

Lemma map_examples :
  Forall (fun dest =>
            is_Some (dest !! "name")
            /\ (truthy (GenerateMapTiles.get dest "latitude")
                && truthy (GenerateMapTiles.get dest "longitude") = true ->
                returns (GenerateMapTiles.get_map_tile_url decimal_float
                           (GenerateMapTiles.get dest "latitude")
                           (GenerateMapTiles.get dest "longitude") 15)))
    [boston_store; no_latitude_field; beaver_marsh].
Proof.
  apply Forall_cons_2; [|apply Forall_cons_2; [|apply Forall_cons_2;
                                                  [|apply Forall_nil_2]]].
  - split; [eexists; reflexivity|]. intros _. eexists. reflexivity.
  - split; [eexists; reflexivity|]. intros H. discriminate H.
  - split; [eexists; reflexivity|]. intros H. discriminate H.
Qed.

Lemma search_boston :
  FindImages.search_wikimedia wikimedia_boston "Boston Store Ohio"
  = Some "https://upload.wikimedia.org/thumb/Boston_Store.jpg".
Proof.
  unfold FindImages.search_wikimedia.
  change (wikimedia_boston "Boston Store Ohio") with (Some (Some boston_pages)).
  unfold boston_pages. cbn [FindImages.best_loop FindImages.imageinfo].
  rewrite (bind_Ok_l (index [small_image] 0) _ small_image eq_refl).
  cbv zeta.
  replace ((FindImages.get_default (FindImages.width small_image) 0 <? 400)%Z
           || (FindImages.get_default (FindImages.height small_image) 0 <? 300)%Z)
    with true by reflexivity.
  cbn [FindImages.best_loop FindImages.imageinfo].
  rewrite (bind_Ok_l (index [large_image] 0) _ large_image eq_refl).
  cbv zeta.
  replace ((FindImages.get_default (FindImages.width large_image) 0 <? 400)%Z
           || (FindImages.get_default (FindImages.height large_image) 0 <? 300)%Z)
    with false by reflexivity.
  replace (FindImages.get_default (FindImages.height large_image) 0
           <? FindImages.get_default (FindImages.width large_image) 0)%Z
    with true by reflexivity.
  rewrite bool_decide_eq_true_2; [reflexivity|].
  change (FindImages.get_default (FindImages.width large_image) 0
          * FindImages.get_default (FindImages.height large_image) 0)%Z
    with 786432%Z.
  lra.
Qed.

End MoreExampleFacts.

(** ** The further theorems at the example destinations *)

Section MoreInstances.
Local Open Scope string_scope.



Lemma is_water_feature_extend_witness :
  ValidateCoordinates.is_water_feature "Dam" = true
  /\ ValidateCoordinates.is_water_feature ("Storm " +:+ "Dam" +:+ "age Survey")
     = true
  /\ ValidateWaterFeatures.is_water_feature
       ("Storm " +:+ "Dam" +:+ "age Survey") = true.
Proof.
  assert (H : ValidateCoordinates.is_water_feature "Dam" = true) by reflexivity.
  split; [exact H|].
  exact (is_water_feature_extend "Dam" "Storm " "age Survey" H).
Defined.

Lemma get_nearby_usgs_sites_short_lines_witness :
  short_reply 41.25%R (-81.55)%R = Some short_line
  /\ Forall (fun line => (List.length (split "009" line) < 6)%nat)
       (split "010" short_line)
  /\ ValidateCoordinates.get_nearby_usgs_sites decimal_float short_reply
       41.25 (-81.55) = [].
Proof.
  assert (H1 : short_reply 41.25%R (-81.55)%R = Some short_line) by reflexivity.
  assert (H2 : Forall (fun line => (List.length (split "009" line) < 6)%nat)
                 (split "010" short_line)).
  { change (split "010" short_line) with [short_line].
    constructor; [|constructor].
    change (List.length (split "009" short_line)) with 5%nat. lia. }
  split; [exact H1|]. split; [exact H2|].
  exact (get_nearby_usgs_sites_short_lines decimal_float short_reply
           41.25 (-81.55) short_line H1 H2).
Defined.

Lemma validate_destination_lacking_field_witness :
  (no_latitude_field !! "name" = None
   \/ no_latitude_field !! "latitude" = None
   \/ no_latitude_field !! "longitude" = None)
  /\ (ValidateCoordinates.validate_destination decimal_float no_usgs_reply
        no_display_name no_latitude_field = Raise KeyError
      \/ (ValidateCoordinates.validate_destination decimal_float no_usgs_reply
            no_display_name no_latitude_field = Raise ValueError
          /\ no_latitude_field !! "longitude" = None
          /\ exists s, no_latitude_field !! "latitude" = Some (PStr s)
                       /\ decimal_float s = None)).
Proof.
  assert (H : no_latitude_field !! "name" = None
              \/ no_latitude_field !! "latitude" = None
              \/ no_latitude_field !! "longitude" = None)
    by (right; left; reflexivity).
  split; [exact H|].
  exact (validate_destination_lacking_field decimal_float no_usgs_reply
           no_display_name no_latitude_field H).
Defined.

Lemma validate_destination_zero_witness :
  equator_marker !! "name" = Some (PStr "Equator Marker")
  /\ equator_marker !! "latitude" = Some (PNum 0)
  /\ equator_marker !! "longitude" = Some (PNum (-78.45))
  /\ (PNum 0 = PNum 0 \/ PNum (-78.45) = PNum 0)
  /\ ValidateCoordinates.readable decimal_float (PNum 0)
  /\ ValidateCoordinates.readable decimal_float (PNum (-78.45))
  /\ ValidateCoordinates.validate_destination decimal_float no_usgs_reply
       no_display_name equator_marker
     = Ok (ValidateCoordinates.mk_validation "MISSING"
             [ValidateCoordinates.NoCoordinates] []).
Proof.
  assert (Hn : equator_marker !! "name" = Some (PStr "Equator Marker"))
    by reflexivity.
  assert (Hlat : equator_marker !! "latitude" = Some (PNum 0)) by reflexivity.
  assert (Hlng : equator_marker !! "longitude" = Some (PNum (-78.45)))
    by reflexivity.
  assert (Hz : PNum 0 = PNum 0 \/ PNum (-78.45) = PNum 0)
    by (left; reflexivity).
  assert (Hrlat : ValidateCoordinates.readable decimal_float (PNum 0))
    by (right; eexists; reflexivity).
  assert (Hrlng : ValidateCoordinates.readable decimal_float (PNum (-78.45)))
    by (right; eexists; reflexivity).
  repeat (split; [assumption|]).
  exact (validate_destination_zero decimal_float no_usgs_reply no_display_name
           equator_marker _ _ _ Hn Hlat Hlng Hz Hrlat Hrlng).
Defined.

Lemma validate_destination_outside_witness :
  stanford_house !! "name" = Some (PStr "Stanford House")
  /\ stanford_house !! "latitude" = Some (PStr "41.43")
  /\ stanford_house !! "longitude" = Some (PStr "-81.55")
  /\ float_if_set decimal_float (PStr "41.43") = Ok (Some 41.43%R)
  /\ float_if_set decimal_float (PStr "-81.55") = Ok (Some (-81.55)%R)
  /\ ValidateCoordinates.is_within_bounds 41.43 (-81.55) = false
  /\ exists r others,
       ValidateCoordinates.validate_destination decimal_float old_portage_reply
         summit_display_name stanford_house = Ok r
       /\ ValidateCoordinates.status r = "WARNING"
       /\ ValidateCoordinates.issues r
          = ValidateCoordinates.OutsideBounds :: others.
Proof.
  assert (Hn : stanford_house !! "name" = Some (PStr "Stanford House"))
    by reflexivity.
  assert (Hlat : stanford_house !! "latitude" = Some (PStr "41.43"))
    by reflexivity.
  assert (Hlng : stanford_house !! "longitude" = Some (PStr "-81.55"))
    by reflexivity.
  pose proof read_41_43 as Hflat. pose proof read_m81_55 as Hflng.
  pose proof outside_bounds_41_43 as Hout.
  repeat (split; [assumption|]).
  exact (validate_destination_outside decimal_float old_portage_reply
           summit_display_name stanford_house _ _ _ _ _
           Hn Hlat Hlng Hflat Hflng Hout).
Defined.

Lemma validate_destination_sizes_witness :
  ValidateCoordinates.validate_destination decimal_float no_usgs_reply
    no_display_name boston_store
  = Ok (ValidateCoordinates.mk_validation "OK" [] [])
  /\ (List.length (ValidateCoordinates.issues
                     (ValidateCoordinates.mk_validation "OK" [] [])) <= 3)%nat
  /\ (List.length (ValidateCoordinates.suggestions
                     (ValidateCoordinates.mk_validation "OK" [] [])) <= 2)%nat.
Proof.
  pose proof boston_store_ok as H.
  split; [exact H|].
  exact (validate_destination_sizes decimal_float no_usgs_reply no_display_name
           boston_store _ H).
Defined.

Lemma validate_destination_name_not_text_witness :
  nameless !! "name" = Some PNone
  /\ (forall s, PNone <> PStr s)
  /\ nameless !! "latitude" = Some (PStr "41.25")
  /\ nameless !! "longitude" = Some (PStr "-81.55")
  /\ float_if_set decimal_float (PStr "41.25") = Ok (Some 41.25%R)
  /\ float_if_set decimal_float (PStr "-81.55") = Ok (Some (-81.55)%R)
  /\ ValidateCoordinates.validate_destination decimal_float no_usgs_reply
       no_display_name nameless = Raise AttributeError.
Proof.
  assert (Hn : nameless !! "name" = Some PNone) by reflexivity.
  assert (Hname : forall s, PNone <> PStr s) by discriminate.
  assert (Hlat : nameless !! "latitude" = Some (PStr "41.25")) by reflexivity.
  assert (Hlng : nameless !! "longitude" = Some (PStr "-81.55"))
    by reflexivity.
  pose proof read_41_25 as Hflat. pose proof read_m81_55 as Hflng.
  repeat (split; [assumption|]).
  exact (validate_destination_name_not_text decimal_float no_usgs_reply
           no_display_name nameless _ _ _ _ _ Hn Hname Hlat Hlng Hflat Hflng).
Defined.

Lemma validate_destination_usgs_unused_witness :
  (forall n, boston_store !! "name" = Some (PStr n) ->
             ValidateCoordinates.is_water_feature n = false)
  /\ ValidateCoordinates.validate_destination decimal_float no_usgs_reply
       summit_display_name boston_store
     = ValidateCoordinates.validate_destination decimal_float old_portage_reply
         summit_display_name boston_store.
Proof.
  assert (H : forall n, boston_store !! "name" = Some (PStr n) ->
                        ValidateCoordinates.is_water_feature n = false).
  { intros n Hn.
    change (Some (PStr "Boston Store") = Some (PStr n)) in Hn.
    injection Hn as <-. reflexivity. }
  split; [exact H|].
  exact (validate_destination_usgs_unused decimal_float no_usgs_reply
           old_portage_reply summit_display_name boston_store H).
Defined.

Lemma main_loop_stops_witness :
  Forall (fun d => returns (ValidateCoordinates.validate_destination
                              decimal_float no_usgs_reply no_display_name d))
    [boston_store]
  /\ ValidateCoordinates.validate_destination decimal_float no_usgs_reply
       no_display_name no_latitude_field = Raise KeyError
  /\ ValidateCoordinates.main_loop decimal_float no_usgs_reply no_display_name
       ([boston_store] ++ no_latitude_field :: [hale_farm])
       ValidateCoordinates.initial_stats = Raise KeyError.
Proof.
  assert (Hpre : Forall (fun d => returns (ValidateCoordinates.validate_destination
                                    decimal_float no_usgs_reply no_display_name d))
                   [boston_store]).
  { repeat constructor. eexists. exact boston_store_ok. }
  assert (He : ValidateCoordinates.validate_destination decimal_float
                 no_usgs_reply no_display_name no_latitude_field
               = Raise KeyError) by reflexivity.
  split; [exact Hpre|]. split; [exact He|].
  exact (main_loop_stops decimal_float no_usgs_reply no_display_name
           [boston_store] [hale_farm] no_latitude_field KeyError Hpre He).
Defined.

Lemma main_counts_by_status_witness :
  Forall (fun dest =>
            returns (ValidateCoordinates.validate_destination decimal_float
                       no_usgs_reply no_display_name dest))
    [hale_farm; stanford_house; boston_store]
  /\ exists stats,
       ValidateCoordinates.main_loop decimal_float no_usgs_reply no_display_name
         [hale_farm; stanford_house; boston_store]
         ValidateCoordinates.initial_stats = Ok stats
       /\ stats !! "OK"
          = Some (ValidateCoordinates.status_count decimal_float no_usgs_reply
                    no_display_name "OK"
                    [hale_farm; stanford_house; boston_store])
       /\ stats !! "WARNING"
          = Some (ValidateCoordinates.status_count decimal_float no_usgs_reply
                    no_display_name "WARNING"
                    [hale_farm; stanford_house; boston_store])
       /\ stats !! "MISSING"
          = Some (ValidateCoordinates.status_count decimal_float no_usgs_reply
                    no_display_name "MISSING"
                    [hale_farm; stanford_house; boston_store])
       /\ (forall k, k <> "OK" -> k <> "WARNING" -> k <> "MISSING" ->
                     stats !! k = None).
Proof.
  assert (Hall : Forall (fun dest =>
                   returns (ValidateCoordinates.validate_destination
                              decimal_float no_usgs_reply no_display_name dest))
                   [hale_farm; stanford_house; boston_store]).
  { repeat constructor.
    - eexists. exact hale_farm_missing.
    - eexists. exact stanford_house_warning.
    - eexists. exact boston_store_ok. }
  split; [exact Hall|].
  exact (main_counts_by_status decimal_float no_usgs_reply no_display_name
           [hale_farm; stanford_house; boston_store] Hall).
Defined.


Lemma validate_destination_geocoded_witness :
  exists r,
    ValidateCoordinates.validate_destination decimal_float no_usgs_reply
      summit_display_name boston_store = Ok r
    /\ In (ValidateCoordinates.GeocodedTo
             "Boston Store, Boston Mills Road, Summit County, Ohio")
         (ValidateCoordinates.suggestions r)
    /\ (String.length "Boston Store, Boston Mills Road, Summit County, Ohio"
        <= 83)%nat
    /\ exists lat lng,
         ValidateCoordinates.reverse_geocode summit_display_name lat lng <> ""
         /\ ("Boston Store, Boston Mills Road, Summit County, Ohio"
             = ValidateCoordinates.reverse_geocode summit_display_name lat lng
             \/ "Boston Store, Boston Mills Road, Summit County, Ohio"
                = prefix_of 80
                    (ValidateCoordinates.reverse_geocode summit_display_name
                       lat lng) +:+ "...").
Proof.
  pose proof (validate_destination_full decimal_float no_usgs_reply
                summit_display_name boston_store "Boston Store"
                (PStr "41.25") (PStr "-81.55") 41.25 (-81.55)
                eq_refl eq_refl eq_refl read_41_25 read_m81_55) as Hr.
  cbv zeta in Hr. eexists. split; [exact Hr|].
  assert (Hin : In (ValidateCoordinates.GeocodedTo
                      "Boston Store, Boston Mills Road, Summit County, Ohio")
                  (ValidateCoordinates.suggestions
                     (ValidateCoordinates.mk_validation
                        (ValidateCoordinates.status_of
                           (ValidateCoordinates.region_issues 41.25 (-81.55)
                            ++ ValidateCoordinates.water_issues decimal_float
                                 no_usgs_reply "Boston Store" 41.25 (-81.55)
                            ++ ValidateCoordinates.geocode_issues
                                 summit_display_name 41.25 (-81.55)))
                        (ValidateCoordinates.region_issues 41.25 (-81.55)
                         ++ ValidateCoordinates.water_issues decimal_float
                              no_usgs_reply "Boston Store" 41.25 (-81.55)
                         ++ ValidateCoordinates.geocode_issues
                              summit_display_name 41.25 (-81.55))
                        (ValidateCoordinates.water_suggestions decimal_float
                           no_usgs_reply "Boston Store" 41.25 (-81.55)
                         ++ ValidateCoordinates.geocode_suggestions
                              summit_display_name 41.25 (-81.55))))).
  { cbn [ValidateCoordinates.suggestions]. apply in_or_app. right.
    left. reflexivity. }
  split; [exact Hin|].
  exact (validate_destination_geocoded decimal_float no_usgs_reply
           summit_display_name boston_store _ _ Hr Hin).
Defined.

Lemma check_destinations_grounded_witness :
  exists issues,
    CoordinateReport.check_destinations decimal_float
      [peninsula_dam; boston_store] [] = Ok issues
    /\ Forall CoordinateReport.grounded issues
    /\ (List.length issues <= 2)%nat
    /\ Forall (fun i => exists dest,
                 dest ∈ [peninsula_dam; boston_store]
                 /\ dest !! "name" = Some (CoordinateReport.issue_name i))
         issues.
Proof.
  destruct peninsula_dam_issue as [i Hi].
  exists [i]. split; [exact Hi|].
  exact (check_destinations_grounded decimal_float
           [peninsula_dam; boston_store] [i] Hi).
Defined.


Lemma main_rows_of_water_features_witness :
  exists rows issues,
    ValidateWaterFeatures.main decimal_float
      [peninsula_dam; boston_store; beaver_marsh] (Some usgs_answer)
    = Ok (rows, issues)
    /\ Forall2 (fun r dest =>
                  dest !! "name" = Some (ValidateWaterFeatures.row_name r))
         rows
         (List.filter ValidateWaterFeatures.named_water_feature
            [peninsula_dam; boston_store; beaver_marsh]).
Proof.
  destruct (main_returns decimal_float
              [peninsula_dam; boston_store; beaver_marsh] (Some usgs_answer)
              well_formed_examples) as [[rows issues] H].
  exists rows, issues. split; [exact H|].
  exact (main_rows_of_water_features decimal_float _ _ rows issues H).
Defined.


Lemma main_without_sites_witness :
  exists rows issues,
    ValidateWaterFeatures.main decimal_float
      [peninsula_dam; boston_store; beaver_marsh] None
    = Ok (rows, issues)
    /\ issues = []
    /\ Forall (fun r => exists name,
                 r = ValidateWaterFeatures.MissingCoords name
                 \/ exists lat lng, r = ValidateWaterFeatures.NoData name lat lng)
         rows.
Proof.
  destruct (main_returns decimal_float
              [peninsula_dam; boston_store; beaver_marsh] None
              well_formed_examples) as [[rows issues] H].
  exists rows, issues. split; [exact H|].
  exact (main_without_sites decimal_float _ rows issues H).
Defined.

Lemma tiles_rows_witness :
  exists rows,
    GenerateMapTiles.main_loop decimal_float
      [boston_store; no_latitude_field; beaver_marsh] [] = Ok rows
    /\ Forall2 (GenerateMapTiles.row_right decimal_float) rows
         [boston_store; no_latitude_field; beaver_marsh].
Proof.
  destruct (tiles_main_loop_returns decimal_float _ map_examples [])
    as [rows H].
  exists rows. split; [exact H|].
  exact (tiles_rows decimal_float _ rows H).
Defined.

Lemma tiles_not_a_number_witness :
  returns (GenerateMapTiles.main_loop decimal_float
             [boston_store; no_latitude_field; beaver_marsh] [])
  /\ north_longitude !! "name" = Some (PStr "Boston Store")
  /\ GenerateMapTiles.not_a_number decimal_float north_longitude
  /\ GenerateMapTiles.main_loop decimal_float
       ([boston_store; no_latitude_field; beaver_marsh]
        ++ north_longitude :: [stanford_house]) [] = Raise ValueError.
Proof.
  pose proof (tiles_main_loop_returns decimal_float _ map_examples []) as Hpre.
  assert (Hn : north_longitude !! "name" = Some (PStr "Boston Store"))
    by reflexivity.
  assert (Hbad : GenerateMapTiles.not_a_number decimal_float north_longitude)
    by (split; [reflexivity | right; reflexivity]).
  split; [exact Hpre|]. split; [exact Hn|]. split; [exact Hbad|].
  exact (tiles_not_a_number decimal_float _ [stanford_house] north_longitude
           _ Hpre Hn Hbad).
Defined.

Lemma search_wikimedia_large_witness :
  FindImages.search_wikimedia wikimedia_boston "Boston Store Ohio"
  = Some "https://upload.wikimedia.org/thumb/Boston_Store.jpg"
  /\ exists pages page_id page i rest,
       wikimedia_boston "Boston Store Ohio" = Some (Some pages)
       /\ (page_id, page) ∈ pages
       /\ FindImages.imageinfo page = Some (i :: rest)
       /\ (400 <= FindImages.get_default (FindImages.width i) 0)%Z
       /\ (300 <= FindImages.get_default (FindImages.height i) 0)%Z
       /\ FindImages.thumb_or_url i
          = Some "https://upload.wikimedia.org/thumb/Boston_Store.jpg".
Proof.
  split; [exact search_boston|].
  exact (search_wikimedia_large wikimedia_boston "Boston Store Ohio" _
           search_boston).
Defined.

Lemma search_wikimedia_empty_imageinfo_witness :
  wikimedia_spoilt "Boston Store" = Some (Some spoilt_pages)
  /\ ("104", FindImages.mk_page (Some [])) ∈ spoilt_pages
  /\ FindImages.imageinfo (FindImages.mk_page (Some [])) = Some []
  /\ FindImages.search_wikimedia wikimedia_spoilt "Boston Store" = None.
Proof.
  assert (H1 : wikimedia_spoilt "Boston Store" = Some (Some spoilt_pages))
    by reflexivity.
  assert (H2 : ("104", FindImages.mk_page (Some [])) ∈ spoilt_pages)
    by (apply elem_of_cons; right; apply elem_of_cons; left; reflexivity).
  assert (H3 : FindImages.imageinfo (FindImages.mk_page (Some [])) = Some [])
    by reflexivity.
  split; [exact H1|]. split; [exact H2|]. split; [exact H3|].
  exact (search_wikimedia_empty_imageinfo wikimedia_spoilt "Boston Store"
           spoilt_pages "104" _ H1 H2 H3).
Defined.

Lemma images_rows_witness :
  exists st,
    FindImages.main_loop wikimedia_boston decimal_float number_text
      [boston_store; no_latitude_field; beaver_marsh]
      (FindImages.mk_progress [] 0 0) = Ok st
    /\ Forall2 (FindImages.image_row_right wikimedia_boston decimal_float
                  number_text)
         (FindImages.rows st) [boston_store; no_latitude_field; beaver_marsh]
    /\ FindImages.wikimedia_found st
       = List.length (List.filter FindImages.is_wikimedia (FindImages.rows st))
    /\ FindImages.map_fallback st
       = List.length (List.filter FindImages.is_map_tile (FindImages.rows st)).
Proof.
  destruct (images_main_loop_returns wikimedia_boston decimal_float number_text
              _ map_examples (FindImages.mk_progress [] 0 0)) as [st H].
  exists st. split; [exact H|].
  exact (images_rows wikimedia_boston decimal_float number_text _ st H).
Defined.

End MoreInstances.
